(** * TradeSense: risk gate, position sizer and trailing-stop maintenance

  A shallow embedding of the decision logic of [risk_management.py],
  the helpers it imports from [utils.py], and the protective-level code of
  [trading.py], followed by the properties of that logic.

  Conventions of the embedding:
  - Python floats are exact rationals ([Q]); Python ints are [Z].
  - The vendor terminal ([mt5]) is an explicit read-only record [Terminal];
    a call that may return [None] is an [option].
  - A method that mutates [self.daily_stats] takes the old statistics and
    returns the new ones.
  - A [try]/[except Exception] block is [try_except] over a [result].
  - Calls to [logger] are left out of a definition, which then gives the
    behaviour on a console that prints every message; the position sizer,
    whose contract is about exceptions, is also modelled with its calls to
    [logger] (the definitions named [_logged]). *)

From Stdlib Require Import ZArith QArith Qround Lqa Lia List String Ascii Bool.
From Stdlib Require Import Qpower.
Import ListNotations.

Open Scope Q_scope.

(* ================================================================== *)
(** ** Python primitives *)

Module Py.

(** Exceptions that the modelled code can raise. *)
Inductive exn : Type :=
| ZeroDivisionError
| AttributeError
| UnicodeEncodeError.

(** Outcome of a block of code: a value, or a raised exception. *)
Inductive result (A : Type) : Type :=
| Ok (a : A)
| Raise (e : exn).

Arguments Ok {A} a.
Arguments Raise {A} e.

Definition bind {A B : Type} (r : result A) (k : A -> result B) : result B :=
  match r with
  | Ok a => k a
  | Raise e => Raise e
  end.

(** [try: body / except Exception as e: handler e]. *)
Definition try_except {A : Type} (body : result A)
    (handler : exn -> result A) : result A :=
  match body with
  | Ok a => Ok a
  | Raise e => handler e
  end.

(** Attribute access on a value that may be [None]. *)
Definition attr {A : Type} (o : option A) : result A :=
  match o with
  | Some a => Ok a
  | None => Raise AttributeError
  end.

(** Float comparison operators as booleans. *)
Definition eqb (a b : Q) : bool := Qeq_bool a b.
Definition leb (a b : Q) : bool := Qle_bool a b.
Definition ltb (a b : Q) : bool := negb (Qle_bool b a).
Definition gtb (a b : Q) : bool := ltb b a.
Definition geb (a b : Q) : bool := leb b a.

(** [max(a, b)] and [min(a, b)]: the first argument wins a tie. *)
Definition max (a b : Q) : Q := if gtb b a then b else a.
Definition min (a b : Q) : Q := if ltb b a then b else a.

(** [a / b] on floats. *)
Definition div (a b : Q) : result Q :=
  if eqb b 0 then Raise ZeroDivisionError else Ok (a / b).

(** [round(x)]: nearest integer, a tie goes to the even neighbour. *)
Definition round (x : Q) : Z :=
  let f := Qfloor x in
  match Qcompare (x - inject_Z f) (1 # 2) with
  | Lt => f
  | Gt => (f + 1)%Z
  | Eq => if Z.even f then f else (f + 1)%Z
  end.

(** [round(x, ndigits)]. *)
Definition round_nd (x : Q) (ndigits : Z) : Q :=
  inject_Z (round (x * Qpower 10 ndigits)) / Qpower 10 ndigits.

(** [d.get(key, default)], the entry of [key] being [entry]. *)
Definition get {A : Type} (entry : option A) (default : A) : A :=
  match entry with
  | Some v => v
  | None => default
  end.

(** [sub in s] on strings. *)
Definition contains (sub s : string) : bool :=
  match String.index 0 sub s with
  | Some _ => true
  | None => false
  end.

End Py.

Notation "x <- r ;; k" := (Py.bind r (fun x => k))
  (at level 61, r at next level, right associativity).

(* ================================================================== *)
(** ** The vendor terminal ([MetaTrader5] / [mock_mt5]) *)

Module Mt5.

Record AccountInfo : Type := {
  balance : Q;
  equity : Q;
  margin : Q;
  margin_free : Q;
  margin_level : Q
}.

Record SymbolInfo : Type := {
  point : Q;
  digits : Z;
  volume_min : Q;
  volume_max : Q;
  volume_step : Q;
  trade_contract_size : Q
}.

Record Tick : Type := {
  bid : Q;
  ask : Q
}.

Definition POSITION_TYPE_BUY : Z := 0.
Definition POSITION_TYPE_SELL : Z := 1.

Record Position : Type := {
  ticket : Z;
  symbol : string;
  type : Z;
  sl : Q;
  tp : Q;
  magic : Z
}.

(** What the terminal answers during one decision. *)
Record Terminal : Type := {
  account_info : option AccountInfo;
  symbol_info : string -> option SymbolInfo;
  symbol_info_tick : string -> option Tick;
  positions_get : list Position;
  positions_total : Z
}.

Definition ORDER_TYPE_BUY : Z := 0.
Definition ORDER_TYPE_SELL : Z := 1.

(** The return code of an accepted order in the vendor SDK. *)
Definition TRADE_RETCODE_DONE : Z := 10009.

(** An order request (a dict in the source), without the constant
    [action], [type_time] and [type_filling] entries. *)
Record OrderRequest : Type := {
  req_symbol : string;
  req_volume : Q;
  req_type : Z;
  req_price : Q;
  req_sl : Q;
  req_tp : Q;
  req_deviation : Z;
  req_magic : Z;
  req_comment : string
}.

(** What [order_send] answers. *)
Record TradeResult : Type := {
  retcode : Z;
  order : Z
}.

End Mt5.

(* ================================================================== *)
(** ** [utils.py] *)

Module Utils.

(** What a call of [logger] is asked to report: the message of each call
    site of the position sizer, its interpolated values as data, and the
    message of [logger] itself about a failed file write. *)
Inductive LogMessage : Type :=
| CannotGetAccountInfo
| CannotGetSymbolInfo (symbol : string)
| CalculatedLotSize (lot_size risk_percent risk_amount : Q)
| ErrorCalculatingLotSize (e : Py.exn)
| ErrorRiskBasedLot (e : Py.exn)
| ErrorApplyingLotLimits (e : Py.exn)
| FileLoggingFailed (e : Py.exn).

(** The console and the day's log file: what [print] does with a message,
    and what the guarded block that appends it to the file does. *)
Record Console : Type := {
  print : LogMessage -> Py.result unit;
  write_log : LogMessage -> Py.result unit
}.

(** [logger(msg)]: the [print] of the message comes first, outside any
    [try]; a failure of the file write is caught and reported by a second
    [print], which is not guarded either. *)
Definition logger (console : Console) (msg : LogMessage) : Py.result unit :=
  u <- print console msg ;;
  Py.try_except (write_log console msg)
    (fun e => print console (FileLoggingFailed e)).

(** A console that prints every message, over a writable log file. *)
Definition printing : Console := {|
  print := fun _ => Py.Ok tt;
  write_log := fun _ => Py.Ok tt
|}.

(** [safe_divide(a, b, default=0.0)]. *)
Definition safe_divide (a b : Q) (default : Q) : Q :=
  if Py.eqb b 0 then default else a / b.

(** [calculate_pip_value(symbol, lot_size)]. *)
Definition calculate_pip_value (mt5 : Mt5.Terminal) (symbol : string)
    (lot_size : Q) : Q :=
  match Mt5.symbol_info mt5 symbol with
  | None => 0
  | Some symbol_info =>
      let pip_size := if Py.contains "JPY" symbol then 0.01 else 0.0001 in
      pip_size * lot_size * Mt5.trade_contract_size symbol_info
  end.

(** [is_high_impact_news_time], at [current_hour]:[current_minute] UTC on
    weekday [day_of_week] (Monday is 0). *)
Definition is_high_impact_news_time (current_hour current_minute
    day_of_week : Z) : bool :=
  let critical_times :=
    [(8, 30, 9, 30); (12, 30, 14, 30); (16, 0, 16, 30)]%Z in
  let critical_times :=
    if (day_of_week =? 2)%Z
    then critical_times ++ [(13, 0, 14, 0)]%Z
    else critical_times in
  let critical_times :=
    if (day_of_week =? 4)%Z
    then critical_times ++ [(12, 30, 15, 0)]%Z
    else critical_times in
  let current_time_minutes := (current_hour * 60 + current_minute)%Z in
  existsb
    (fun '(start_h, start_m, end_h, end_m) =>
       let start_minutes := (start_h * 60 + start_m)%Z in
       let end_minutes := (end_h * 60 + end_m)%Z in
       (start_minutes <=? current_time_minutes)%Z
       && (current_time_minutes <=? end_minutes)%Z)
    critical_times.

(** [get_market_session], at hour [hour] UTC. *)
Definition get_market_session (hour : Z) : string :=
  if (21 <=? hour)%Z || (hour <? 6)%Z then "Asia"
  else if (7 <=? hour)%Z && (hour <? 15)%Z then "London"
  else if (15 <=? hour)%Z && (hour <? 21)%Z then "New_York"
  else "Closed".

(** [is_market_open], on weekday [day_of_week] (Monday is 0) at hour
    [hour] UTC. *)
Definition is_market_open (day_of_week hour : Z) : bool :=
  if (day_of_week =? 5)%Z && (hour >=? 22)%Z then false
  else if (day_of_week =? 6)%Z then false
  else if (day_of_week =? 0)%Z && (hour <? 22)%Z then false
  else true.

(** [round_to_symbol_digits(value, symbol)]. *)
Definition round_to_symbol_digits (mt5 : Mt5.Terminal) (value : Q)
    (symbol : string) : Q :=
  match Mt5.symbol_info mt5 symbol with
  | Some symbol_info => Py.round_nd value (Mt5.digits symbol_info)
  | None => Py.round_nd value 5
  end.

(** [calculate_lot_from_risk(balance, risk_percent, stop_loss_pips,
    pip_value)]. *)
Definition calculate_lot_from_risk (balance risk_percent stop_loss_pips
    pip_value : Q) : Q :=
  if Py.leb pip_value 0 || Py.leb stop_loss_pips 0 then 0.01
  else
    let risk_amount := balance * (risk_percent / 100) in
    let lot_size := risk_amount / (stop_loss_pips * pip_value) in
    Py.max 0.01 (Py.round_nd lot_size 2).

(** The loop of the wrapper that [retry_on_failure] returns: [func k] is
    the outcome of the call made at attempt [k]; [remaining] attempts are
    left, starting with [attempt].  Falling out of the loop returns
    [None]. *)
Fixpoint retry_loop {A : Type} (func : nat -> Py.result A)
    (max_retries : Z) (attempt remaining : nat) : Py.result (option A) :=
  match remaining with
  | O => Py.Ok None
  | S remaining' =>
      match func attempt with
      | Py.Ok v => Py.Ok (Some v)
      | Py.Raise e =>
          if (Z.of_nat attempt =? max_retries - 1)%Z
          then Py.Raise e
          else retry_loop func max_retries (S attempt) remaining'
      end
  end.

(** [retry_on_failure(func, max_retries)] called once. *)
Definition retry_on_failure {A : Type} (func : nat -> Py.result A)
    (max_retries : Z) : Py.result (option A) :=
  retry_loop func max_retries 0 (Z.to_nat max_retries).

End Utils.

(* ================================================================== *)
(** ** Configuration ([config.get(key, default)]) *)

Module Config.

(** The keys read by the modelled code; [None] is an absent key. *)
Record t : Type := {
  max_daily_loss : option Q;
  daily_profit_target : option Q;
  max_drawdown : option Q;
  auto_stop_drawdown : option bool;
  max_positions : option Z;
  max_loss_streak : option Z;
  risk_percent : option Q;
  auto_lot : option bool;
  lot_size : option Q;
  sl_value : option Q;
  sl_unit : option string;
  tp_value : option Q;
  tp_unit : option string;
  trailing_stop : option bool;
  trailing_distance : option Q
}.

Definition get {A : Type} (field : option A) (default : A) : A :=
  Py.get field default.

(** A configuration file that sets none of the keys. *)
Definition empty : t := {|
  max_daily_loss := None;
  daily_profit_target := None;
  max_drawdown := None;
  auto_stop_drawdown := None;
  max_positions := None;
  max_loss_streak := None;
  risk_percent := None;
  auto_lot := None;
  lot_size := None;
  sl_value := None;
  sl_unit := None;
  tp_value := None;
  tp_unit := None;
  trailing_stop := None;
  trailing_distance := None
|}.

(** Further keys of the same dict, read by the trading loop and by the
    emergency check. *)
Record more : Type := {
  emergency_stop_threshold : option Q;
  avoid_news : option bool;
  ai_confidence : option Q
}.

(** [get_setting(key, default)] for a top-level key. *)
Definition get_setting {A : Type} (field : option A) (default : A) : A :=
  Py.get field default.

(** [update_config('risk_percent', value)]. *)
Definition update_config_risk_percent (config : t) (value : Q) : t := {|
  max_daily_loss := max_daily_loss config;
  daily_profit_target := daily_profit_target config;
  max_drawdown := max_drawdown config;
  auto_stop_drawdown := auto_stop_drawdown config;
  max_positions := max_positions config;
  max_loss_streak := max_loss_streak config;
  risk_percent := Some value;
  auto_lot := auto_lot config;
  lot_size := lot_size config;
  sl_value := sl_value config;
  sl_unit := sl_unit config;
  tp_value := tp_value config;
  tp_unit := tp_unit config;
  trailing_stop := trailing_stop config;
  trailing_distance := trailing_distance config
|}.

End Config.

(* ================================================================== *)
(** ** [risk_management.py]: class [RiskManager] *)

Module RiskManager.

(** [self.daily_stats]; [last_reset] is a calendar date, as a day number. *)
Record DailyStats : Type := {
  start_balance : Q;
  current_profit : Q;
  trades_today : Z;
  winning_trades : Z;
  losing_trades : Z;
  consecutive_losses : Z;
  max_drawdown_today : Q;
  last_reset : Z
}.

(** An entry of [self.position_history]. *)
Record TradeRecord : Type := {
  tr_symbol : string;
  tr_action : string;
  tr_lot_size : Q;
  tr_entry_price : Q;
  tr_exit_price : Q;
  tr_profit : Q;
  tr_is_winning : bool
}.

(** The mutable part of a [RiskManager] instance. *)
Record t : Type := {
  daily_stats : DailyStats;
  position_history : list TradeRecord
}.

(** [__init__], constructed on day [today]. *)
Definition init (today : Z) : t := {|
  daily_stats := {|
    start_balance := 0;
    current_profit := 0;
    trades_today := 0;
    winning_trades := 0;
    losing_trades := 0;
    consecutive_losses := 0;
    max_drawdown_today := 0;
    last_reset := today
  |};
  position_history := []
|}.

Definition set_start_balance (st : DailyStats) (b : Q) : DailyStats := {|
  start_balance := b;
  current_profit := current_profit st;
  trades_today := trades_today st;
  winning_trades := winning_trades st;
  losing_trades := losing_trades st;
  consecutive_losses := consecutive_losses st;
  max_drawdown_today := max_drawdown_today st;
  last_reset := last_reset st
|}.

(** [_check_daily_reset]: on the first call of a new day, re-seed the start
    balance when the account is readable and zero the day's counters. *)
Definition _check_daily_reset (today : Z) (mt5 : Mt5.Terminal)
    (st : DailyStats) : DailyStats :=
  if (last_reset st <? today)%Z then
    let st1 :=
      match Mt5.account_info mt5 with
      | Some account_info => set_start_balance st (Mt5.balance account_info)
      | None => st
      end in
    {| start_balance := start_balance st1;
       current_profit := 0;
       trades_today := 0;
       winning_trades := 0;
       losing_trades := 0;
       consecutive_losses := 0;
       max_drawdown_today := 0;
       last_reset := today |}
  else st.

(** [_check_daily_loss_limit]: seeds a zero start balance, then compares. *)
Definition _check_daily_loss_limit (account_info : Mt5.AccountInfo)
    (config : Config.t) (st : DailyStats) : bool * DailyStats :=
  let max_daily_loss := Config.get (Config.max_daily_loss config) 5.0 in
  let st :=
    if Py.eqb (start_balance st) 0
    then set_start_balance st (Mt5.balance account_info)
    else st in
  let current_loss_pct :=
    Utils.safe_divide (start_balance st - Mt5.balance account_info)
                      (start_balance st * 100) 0 in
  if Py.gtb current_loss_pct max_daily_loss then (false, st) else (true, st).

(** [_check_daily_profit_target]: the blocking [return False] is commented
    out in the source, so reaching the target only logs. *)
Definition _check_daily_profit_target (account_info : Mt5.AccountInfo)
    (config : Config.t) (st : DailyStats) : bool :=
  let daily_profit_target := Config.get (Config.daily_profit_target config) 10.0 in
  if Py.eqb (start_balance st) 0 then true
  else
    let current_profit_pct :=
      Utils.safe_divide (Mt5.balance account_info - start_balance st)
                        (start_balance st * 100) 0 in
    if Py.geb current_profit_pct daily_profit_target then true else true.

(** [_check_max_drawdown]. *)
Definition _check_max_drawdown (account_info : Mt5.AccountInfo)
    (config : Config.t) (st : DailyStats) : bool :=
  let max_drawdown := Config.get (Config.max_drawdown config) 5.0 in
  let auto_stop := Config.get (Config.auto_stop_drawdown config) true in
  if negb auto_stop then true
  else if Py.eqb (start_balance st) 0 then true
  else
    let peak_balance := Py.max (start_balance st) (Mt5.equity account_info) in
    let current_drawdown :=
      Utils.safe_divide (peak_balance - Mt5.equity account_info)
                        (peak_balance * 100) 0 in
    if Py.gtb current_drawdown max_drawdown then false else true.

(** [_check_position_limits]. *)
Definition _check_position_limits (mt5 : Mt5.Terminal) (config : Config.t)
    : bool :=
  let max_positions := Config.get (Config.max_positions config) 10%Z in
  let current_positions := Mt5.positions_total mt5 in
  if (current_positions >=? max_positions)%Z then false else true.

(** [_check_loss_streak]. *)
Definition _check_loss_streak (config : Config.t) (st : DailyStats) : bool :=
  let max_loss_streak := Config.get (Config.max_loss_streak config) 3%Z in
  if (consecutive_losses st >=? max_loss_streak)%Z then false else true.

(** [_check_margin_requirements]. *)
Definition _check_margin_requirements (account_info : Mt5.AccountInfo) : bool :=
  let free_margin := Mt5.margin_free account_info in
  let margin_level :=
    if Py.gtb (Mt5.margin account_info) 0
    then Mt5.margin_level account_info
    else 999999 in
  let min_margin_level := 200 in
  if Py.ltb margin_level min_margin_level then false
  else
    let min_free_margin := Mt5.balance account_info * 0.1 in
    if Py.ltb free_margin min_free_margin then false else true.

(** [can_trade]: the daily reset, then the six checks in source order, the
    first failing one deciding.  The result carries the statistics as the
    call leaves them. *)
Definition can_trade (today : Z) (mt5 : Mt5.Terminal) (config : Config.t)
    (st : DailyStats) : bool * DailyStats :=
  let st := _check_daily_reset today mt5 st in
  match Mt5.account_info mt5 with
  | None => (false, st)
  | Some account_info =>
      let (ok, st) := _check_daily_loss_limit account_info config st in
      if negb ok then (false, st)
      else if negb (_check_daily_profit_target account_info config st) then (false, st)
      else if negb (_check_max_drawdown account_info config st) then (false, st)
      else if negb (_check_position_limits mt5 config) then (false, st)
      else if negb (_check_loss_streak config st) then (false, st)
      else if negb (_check_margin_requirements account_info) then (false, st)
      else (true, st)
  end.

(** A trading signal (a dict in the source); [price] may be missing. *)
Record Signal : Type := {
  sig_action : string;
  sig_symbol : string;
  sig_strategy : string;
  sig_confidence : Q;
  sig_price : option Q
}.

(** The pip size of the percent branch of [_calculate_risk_based_lot]
    (the conditional expression of the source, both arms as written). *)
Definition pip_size (symbol : string) (symbol_info : Mt5.SymbolInfo) : Q :=
  if Py.contains "JPY" symbol
  then Mt5.point symbol_info * 10
  else Mt5.point symbol_info * 10.

(** Body of the [try] block of [_calculate_risk_based_lot]. *)
Definition _calculate_risk_based_lot_body (mt5 : Mt5.Terminal)
    (config : Config.t) (risk_amount : Q) (symbol : string)
    (symbol_info : Mt5.SymbolInfo) (signal : Signal) : Py.result Q :=
  let sl_value := Config.get (Config.sl_value config) 25 in
  let sl_unit := Config.get (Config.sl_unit config) "pips"%string in
  sl_pips <-
    (if String.eqb sl_unit "pips" then Py.Ok sl_value
     else if String.eqb sl_unit "percent" then
       let current_price := Py.get (sig_price signal) 0 in
       if Py.gtb current_price 0 then
         let sl_distance := current_price * (sl_value / 100) in
         Py.div sl_distance (pip_size symbol symbol_info)
       else Py.Ok 25
     else Py.Ok 25) ;;
  let sl_pips := if Py.leb sl_pips 0 then 25 else sl_pips in
  let pip_value := Utils.calculate_pip_value mt5 symbol 1.0 in
  let pip_value := if Py.leb pip_value 0 then 10 else pip_value in
  Py.Ok (Utils.safe_divide risk_amount (sl_pips * pip_value) 0).

(** [_calculate_risk_based_lot], the handler with its call to [logger]. *)
Definition _calculate_risk_based_lot_logged (console : Utils.Console)
    (mt5 : Mt5.Terminal) (config : Config.t) (risk_amount : Q)
    (symbol : string) (symbol_info : Mt5.SymbolInfo) (signal : Signal)
    : Py.result Q :=
  Py.try_except
    (_calculate_risk_based_lot_body mt5 config risk_amount symbol symbol_info signal)
    (fun e =>
       u <- Utils.logger console (Utils.ErrorRiskBasedLot e) ;;
       Py.Ok 0.01).

(** [_calculate_risk_based_lot] on a console that prints every message. *)
Definition _calculate_risk_based_lot (mt5 : Mt5.Terminal)
    (config : Config.t) (risk_amount : Q) (symbol : string)
    (symbol_info : Mt5.SymbolInfo) (signal : Signal) : Py.result Q :=
  _calculate_risk_based_lot_logged Utils.printing mt5 config risk_amount
    symbol symbol_info signal.

(** Body of the [try] block of [_apply_lot_limits]. *)
Definition _apply_lot_limits_body (lot_size : Q)
    (symbol_info : Mt5.SymbolInfo) (account_info : Mt5.AccountInfo)
    : Py.result Q :=
  let min_lot := Mt5.volume_min symbol_info in
  let max_lot := Mt5.volume_max symbol_info in
  let lot_step := Mt5.volume_step symbol_info in
  let lot_size := Py.max lot_size min_lot in
  let balance := Mt5.balance account_info in
  let max_lot_by_balance := Utils.safe_divide (balance * 0.1) 1000 0 in
  let lot_size := Py.min lot_size max_lot_by_balance in
  let lot_size := Py.min lot_size max_lot in
  steps <- Py.div lot_size lot_step ;;
  let lot_size := inject_Z (Py.round steps) * lot_step in
  let lot_size := Py.max lot_size min_lot in
  Py.Ok (Py.round_nd lot_size 2).

(** [_apply_lot_limits], the handler with its call to [logger]. *)
Definition _apply_lot_limits_logged (console : Utils.Console) (lot_size : Q)
    (symbol_info : Mt5.SymbolInfo) (account_info : Mt5.AccountInfo)
    : Py.result Q :=
  Py.try_except (_apply_lot_limits_body lot_size symbol_info account_info)
    (fun e =>
       u <- Utils.logger console (Utils.ErrorApplyingLotLimits e) ;;
       Py.Ok 0.01).

(** [_apply_lot_limits] on a console that prints every message. *)
Definition _apply_lot_limits (lot_size : Q) (symbol_info : Mt5.SymbolInfo)
    (account_info : Mt5.AccountInfo) : Py.result Q :=
  _apply_lot_limits_logged Utils.printing lot_size symbol_info account_info.

(** Body of the [try] block of [calculate_lot_size], with its calls to
    [logger]: one in each missing-data branch, one before the result is
    returned. *)
Definition calculate_lot_size_body (console : Utils.Console)
    (mt5 : Mt5.Terminal) (config : Config.t) (symbol : string)
    (signal : Signal) : Py.result Q :=
  match Mt5.account_info mt5 with
  | None =>
      u <- Utils.logger console Utils.CannotGetAccountInfo ;;
      Py.Ok 0.01
  | Some account_info =>
      match Mt5.symbol_info mt5 symbol with
      | None =>
          u <- Utils.logger console (Utils.CannotGetSymbolInfo symbol) ;;
          Py.Ok 0.01
      | Some symbol_info =>
          let risk_percent := Config.get (Config.risk_percent config) 1.0 in
          let risk_amount := Mt5.balance account_info * (risk_percent / 100) in
          lot_size <-
            (if Config.get (Config.auto_lot config) true
             then _calculate_risk_based_lot_logged console mt5 config
                    risk_amount symbol symbol_info signal
             else Py.Ok (Config.get (Config.lot_size config) 0.01)) ;;
          lot_size <-
            _apply_lot_limits_logged console lot_size symbol_info
              account_info ;;
          u <- Utils.logger console
                 (Utils.CalculatedLotSize lot_size risk_percent risk_amount) ;;
          Py.Ok lot_size
      end
  end.

(** [calculate_lot_size], the handler with its call to [logger]. *)
Definition calculate_lot_size_logged (console : Utils.Console)
    (mt5 : Mt5.Terminal) (config : Config.t) (symbol : string)
    (signal : Signal) : Py.result Q :=
  Py.try_except (calculate_lot_size_body console mt5 config symbol signal)
    (fun e =>
       u <- Utils.logger console (Utils.ErrorCalculatingLotSize e) ;;
       Py.Ok 0.01).

(** [calculate_lot_size] on a console that prints every message. *)
Definition calculate_lot_size (mt5 : Mt5.Terminal) (config : Config.t)
    (symbol : string) (signal : Signal) : Py.result Q :=
  calculate_lot_size_logged Utils.printing mt5 config symbol signal.

(** [record_trade_result]: appends to the history and updates the day's
    counters.  The closing call to [_check_emergency_conditions] only reads
    the account and logs, so it leaves the instance as it is. *)
Definition record_trade_result (rm : t) (symbol action : string)
    (lot_size entry_price exit_price profit : Q) : t :=
  let trade_record := {|
    tr_symbol := symbol;
    tr_action := action;
    tr_lot_size := lot_size;
    tr_entry_price := entry_price;
    tr_exit_price := exit_price;
    tr_profit := profit;
    tr_is_winning := Py.gtb profit 0
  |} in
  let st := daily_stats rm in
  {| daily_stats :=
       if Py.gtb profit 0 then
         {| start_balance := start_balance st;
            current_profit := current_profit st + profit;
            trades_today := trades_today st + 1;
            winning_trades := winning_trades st + 1;
            losing_trades := losing_trades st;
            consecutive_losses := 0;
            max_drawdown_today := max_drawdown_today st;
            last_reset := last_reset st |}
       else
         {| start_balance := start_balance st;
            current_profit := current_profit st + profit;
            trades_today := trades_today st + 1;
            winning_trades := winning_trades st;
            losing_trades := losing_trades st + 1;
            consecutive_losses := consecutive_losses st + 1;
            max_drawdown_today := max_drawdown_today st;
            last_reset := last_reset st |};
     position_history := position_history rm ++ [trade_record] |}.

(** The bookkeeping invariant of the day's counters. *)
Definition counters_agree (st : DailyStats) : Prop :=
  (winning_trades st + losing_trades st = trades_today st)%Z.

(** The calls that reach a [RiskManager] instance between two
    observations of its statistics. *)
Inductive call : Type :=
  | RecordTradeResult (symbol action : string)
      (lot_size entry_price exit_price profit : Q)
  | CheckDailyReset (today : Z) (mt5 : Mt5.Terminal)
  | CanTrade (today : Z) (mt5 : Mt5.Terminal) (config : Config.t).

Definition set_daily_stats (rm : t) (st : DailyStats) : t :=
  {| daily_stats := st; position_history := position_history rm |}.

(** The instance after one call. *)
Definition perform (rm : t) (c : call) : t :=
  match c with
  | RecordTradeResult symbol action lot_size entry_price exit_price profit =>
      record_trade_result rm symbol action lot_size entry_price exit_price profit
  | CheckDailyReset today mt5 =>
      set_daily_stats rm (_check_daily_reset today mt5 (daily_stats rm))
  | CanTrade today mt5 config =>
      set_daily_stats rm (snd (can_trade today mt5 config (daily_stats rm)))
  end.

(** The instance after a sequence of calls, oldest first. *)
Definition run (rm : t) (calls : list call) : t := fold_left perform calls rm.

(** [_check_emergency_conditions]: whether it calls [emergency_stop()]. *)
Definition _check_emergency_conditions (mt5 : Mt5.Terminal)
    (config : Config.more) (st : DailyStats) : bool :=
  let emergency_threshold :=
    Config.get (Config.emergency_stop_threshold config) 20 in
  match Mt5.account_info mt5 with
  | Some account_info =>
      if Py.gtb (start_balance st) 0 then
        let loss_pct :=
          Utils.safe_divide (start_balance st - Mt5.balance account_info)
                            (start_balance st * 100) 0 in
        if Py.gtb loss_pct emergency_threshold then true else false
      else false
  | None => false
  end.

(** [adjust_risk_after_loss]: the configuration it leaves. *)
Definition adjust_risk_after_loss (config : Config.t) (st : DailyStats)
    : Config.t :=
  let consecutive_losses := consecutive_losses st in
  if (consecutive_losses >=? 2)%Z then
    let current_risk := Config.get_setting (Config.risk_percent config) 1.0 in
    let reduced_risk := current_risk * 0.8 in
    let reduced_risk := Py.max reduced_risk 0.2 in
    Config.update_config_risk_percent config reduced_risk
  else config.

(** [restore_normal_risk]: the configuration it leaves. *)
Definition restore_normal_risk (config : Config.t) : Config.t :=
  let current_risk := Config.get_setting (Config.risk_percent config) 1.0 in
  let normal_risk := 1.0 in
  if Py.ltb current_risk normal_risk then
    let increased_risk := Py.min (current_risk * 1.1) normal_risk in
    Config.update_config_risk_percent config increased_risk
  else config.

(** [restore_normal_risk] called [n] times in a row. *)
Fixpoint restore_normal_risk_times (n : nat) (config : Config.t) : Config.t :=
  match n with
  | O => config
  | S n' => restore_normal_risk_times n' (restore_normal_risk config)
  end.

(** The risk percent that the position sizer will read. *)
Definition risk_percent_of (config : Config.t) : Q :=
  Config.get (Config.risk_percent config) 1.0.

(** The order that the day's counters and the history keep. *)
Definition counters_ordered (rm : t) : Prop :=
  let st := daily_stats rm in
  (0 <= consecutive_losses st <= losing_trades st)%Z
  /\ (0 <= winning_trades st)%Z
  /\ (trades_today st <= Z.of_nat (List.length (position_history rm)))%Z.

(** A trade closed at a loss or flat. *)
Definition is_losing_call (c : call) : Prop :=
  match c with
  | RecordTradeResult _ _ _ _ _ profit => profit <= 0
  | _ => False
  end.

End RiskManager.

(* ================================================================== *)
(** ** [trading.py]: class [TradingEngine], protective levels *)

Module TradingEngine.

(** The pip size that [_calculate_tp_sl] and [_update_trailing_stop] bind
    to [pip_value] (the conditional expression of the source, both arms as
    written). *)
Definition pip_value (symbol : string) (symbol_info : Mt5.SymbolInfo) : Q :=
  if Py.contains "JPY" symbol
  then Mt5.point symbol_info * 10
  else Mt5.point symbol_info * 10.

(** Body of the [try] block of [_calculate_tp_sl]. *)
Definition _calculate_tp_sl_body (mt5 : Mt5.Terminal) (config : Config.t)
    (symbol action : string) (price : Q) : Py.result (Q * Q) :=
  let symbol_info := Mt5.symbol_info mt5 symbol in
  let tp_value := Config.get (Config.tp_value config) 50 in
  let tp_unit := Config.get (Config.tp_unit config) "pips"%string in
  let sl_value := Config.get (Config.sl_value config) 25 in
  let sl_unit := Config.get (Config.sl_unit config) "pips"%string in
  tp_price <-
    (if String.eqb tp_unit "pips" then
       si <- Py.attr symbol_info ;;
       let pip_value := pip_value symbol si in
       if String.eqb action "buy"
       then Py.Ok (price + tp_value * pip_value)
       else Py.Ok (price - tp_value * pip_value)
     else if String.eqb tp_unit "price" then Py.Ok tp_value
     else if String.eqb tp_unit "percent" then
       if String.eqb action "buy"
       then Py.Ok (price * (1 + tp_value / 100))
       else Py.Ok (price * (1 - tp_value / 100))
     else Py.Ok 0) ;;
  sl_price <-
    (if String.eqb sl_unit "pips" then
       si <- Py.attr symbol_info ;;
       let pip_value := pip_value symbol si in
       if String.eqb action "buy"
       then Py.Ok (price - sl_value * pip_value)
       else Py.Ok (price + sl_value * pip_value)
     else if String.eqb sl_unit "price" then Py.Ok sl_value
     else if String.eqb sl_unit "percent" then
       if String.eqb action "buy"
       then Py.Ok (price * (1 - sl_value / 100))
       else Py.Ok (price * (1 + sl_value / 100))
     else Py.Ok 0) ;;
  si <- Py.attr symbol_info ;;
  let digits := Mt5.digits si in
  let tp_price := if Py.gtb tp_price 0 then Py.round_nd tp_price digits else 0 in
  let sl_price := if Py.gtb sl_price 0 then Py.round_nd sl_price digits else 0 in
  Py.Ok (tp_price, sl_price).

(** [_calculate_tp_sl]. *)
Definition _calculate_tp_sl (mt5 : Mt5.Terminal) (config : Config.t)
    (symbol action : string) (price : Q) : Py.result (Q * Q) :=
  Py.try_except (_calculate_tp_sl_body mt5 config symbol action price)
    (fun _ => Py.Ok (0, 0)).

(** The arguments of a call [self._modify_position(ticket, sl, tp)]. *)
Record ModifyCall : Type := {
  mc_ticket : Z;
  mc_sl : Q;
  mc_tp : Q
}.

(** Body of the [try] block of [_update_trailing_stop]: the call to
    [_modify_position] that it makes, if any. *)
Definition _update_trailing_stop_body (mt5 : Mt5.Terminal)
    (position : Mt5.Position) (trailing_distance : Q)
    : Py.result (option ModifyCall) :=
  let symbol := Mt5.symbol position in
  symbol_info <- Py.attr (Mt5.symbol_info mt5 symbol) ;;
  let pip_value := pip_value symbol symbol_info in
  current_price <-
    (if (Mt5.type position =? Mt5.POSITION_TYPE_BUY)%Z
     then tick <- Py.attr (Mt5.symbol_info_tick mt5 symbol) ;; Py.Ok (Mt5.bid tick)
     else tick <- Py.attr (Mt5.symbol_info_tick mt5 symbol) ;; Py.Ok (Mt5.ask tick)) ;;
  if (Mt5.type position =? Mt5.POSITION_TYPE_BUY)%Z then
    let new_sl := current_price - trailing_distance * pip_value in
    if Py.eqb (Mt5.sl position) 0 || Py.gtb new_sl (Mt5.sl position)
    then Py.Ok (Some {| mc_ticket := Mt5.ticket position;
                        mc_sl := new_sl;
                        mc_tp := Mt5.tp position |})
    else Py.Ok None
  else
    let new_sl := current_price + trailing_distance * pip_value in
    if Py.eqb (Mt5.sl position) 0 || Py.ltb new_sl (Mt5.sl position)
    then Py.Ok (Some {| mc_ticket := Mt5.ticket position;
                        mc_sl := new_sl;
                        mc_tp := Mt5.tp position |})
    else Py.Ok None.

(** [_update_trailing_stop]. *)
Definition _update_trailing_stop (mt5 : Mt5.Terminal)
    (position : Mt5.Position) (trailing_distance : Q)
    : Py.result (option ModifyCall) :=
  Py.try_except (_update_trailing_stop_body mt5 position trailing_distance)
    (fun _ => Py.Ok None).

(** [_manage_positions]: the calls to [_modify_position] made by one
    pass over the open positions, in order. *)
Definition _manage_positions (mt5 : Mt5.Terminal) (config : Config.t)
    : list ModifyCall :=
  let positions := Mt5.positions_get mt5 in
  match positions with
  | [] => []
  | _ =>
      if negb (Config.get (Config.trailing_stop config) false) then []
      else
        let trailing_distance :=
          Config.get (Config.trailing_distance config) 15 in
        flat_map
          (fun position =>
             if negb (Mt5.magic position =? 234000)%Z then []
             else
               match _update_trailing_stop mt5 position trailing_distance with
               | Py.Ok (Some call) => [call]
               | _ => []
               end)
          positions
  end.

(** An entry of [self.session_data['trades_log']]. *)
Record TradeLog : Type := {
  tl_time : Q;
  tl_symbol : string;
  tl_action : string;
  tl_volume : Q;
  tl_price : Q;
  tl_tp : Q;
  tl_sl : Q;
  tl_strategy : string;
  tl_confidence : Q;
  tl_ticket : Z
}.

(** [self.session_data]. *)
Record SessionData : Type := {
  sd_start_balance : Q;
  sd_total_trades : Z;
  sd_winning_trades : Z;
  sd_losing_trades : Z;
  sd_total_profit : Q;
  sd_daily_profit : Q;
  sd_max_equity : Q;
  sd_trades_log : list TradeLog
}.

(** [session_data] as [__init__] builds it. *)
Definition session_data_init : SessionData := {|
  sd_start_balance := 0;
  sd_total_trades := 0;
  sd_winning_trades := 0;
  sd_losing_trades := 0;
  sd_total_profit := 0;
  sd_daily_profit := 0;
  sd_max_equity := 0;
  sd_trades_log := []
|}.

(** What one call of [_execute_trade] does: its return value, the session
    data it leaves and the request it hands to [order_send], if any. *)
Record Execution : Type := {
  ex_success : bool;
  ex_session_data : SessionData;
  ex_sent : option Mt5.OrderRequest
}.

(** Body of the [try] block of [_execute_trade], at time [now], the broker
    answering [order_send]. *)
Definition _execute_trade_body (mt5 : Mt5.Terminal) (config : Config.t)
    (order_send : Mt5.OrderRequest -> Mt5.TradeResult) (now : Q)
    (session_data : SessionData) (signal : RiskManager.Signal)
    : Py.result Execution :=
  let symbol := RiskManager.sig_symbol signal in
  let action := RiskManager.sig_action signal in
  match Mt5.symbol_info mt5 symbol with
  | None => Py.Ok {| ex_success := false;
                     ex_session_data := session_data;
                     ex_sent := None |}
  | Some symbol_info =>
      lot_size <-
        (if Config.get (Config.auto_lot config) true
         then RiskManager.calculate_lot_size mt5 config symbol signal
         else Py.Ok (Config.get (Config.lot_size config) 0.01)) ;;
      if Py.leb lot_size 0
      then Py.Ok {| ex_success := false;
                    ex_session_data := session_data;
                    ex_sent := None |}
      else
        tick <- Py.attr (Mt5.symbol_info_tick mt5 symbol) ;;
        let price :=
          if String.eqb action "buy" then Mt5.ask tick else Mt5.bid tick in
        let order_type :=
          if String.eqb action "buy"
          then Mt5.ORDER_TYPE_BUY else Mt5.ORDER_TYPE_SELL in
        levels <- _calculate_tp_sl mt5 config symbol action price ;;
        let tp_price := fst levels in
        let sl_price := snd levels in
        let request := {|
          Mt5.req_symbol := symbol;
          Mt5.req_volume := lot_size;
          Mt5.req_type := order_type;
          Mt5.req_price := price;
          Mt5.req_sl := sl_price;
          Mt5.req_tp := tp_price;
          Mt5.req_deviation := 20;
          Mt5.req_magic := 234000;
          Mt5.req_comment := "Bot_" ++ RiskManager.sig_strategy signal
        |} in
        let result := order_send request in
        if negb (Mt5.retcode result =? Mt5.TRADE_RETCODE_DONE)%Z
        then Py.Ok {| ex_success := false;
                      ex_session_data := session_data;
                      ex_sent := Some request |}
        else
          let trade_log := {|
            tl_time := now;
            tl_symbol := symbol;
            tl_action := action;
            tl_volume := lot_size;
            tl_price := price;
            tl_tp := tp_price;
            tl_sl := sl_price;
            tl_strategy := RiskManager.sig_strategy signal;
            tl_confidence := RiskManager.sig_confidence signal;
            tl_ticket := Mt5.order result
          |} in
          Py.Ok {| ex_success := true;
                   ex_session_data := {|
                     sd_start_balance := sd_start_balance session_data;
                     sd_total_trades := sd_total_trades session_data + 1;
                     sd_winning_trades := sd_winning_trades session_data;
                     sd_losing_trades := sd_losing_trades session_data;
                     sd_total_profit := sd_total_profit session_data;
                     sd_daily_profit := sd_daily_profit session_data;
                     sd_max_equity := sd_max_equity session_data;
                     sd_trades_log :=
                       sd_trades_log session_data ++ [trade_log]
                   |};
                   ex_sent := Some request |}
  end.

(** [_execute_trade]. *)
Definition _execute_trade (mt5 : Mt5.Terminal) (config : Config.t)
    (order_send : Mt5.OrderRequest -> Mt5.TradeResult) (now : Q)
    (session_data : SessionData) (signal : RiskManager.Signal)
    : Py.result Execution :=
  Py.try_except
    (_execute_trade_body mt5 config order_send now session_data signal)
    (fun _ => Py.Ok {| ex_success := false;
                       ex_session_data := session_data;
                       ex_sent := None |}).

(** The part of the engine that [_process_signal] reads and writes;
    [last_trade_time] is a dict from symbol to time. *)
Record Engine : Type := {
  running : bool;
  last_trade_time : string -> option Q;
  session_data : SessionData
}.

(** What one call of [_process_signal] does. *)
Record Processed : Type := {
  pr_engine : Engine;
  pr_sent : option Mt5.OrderRequest
}.

(** [_process_signal], at time [now].  The chat notification that follows
    an accepted order has no effect on the engine and is left out. *)
Definition _process_signal (mt5 : Mt5.Terminal) (config : Config.t)
    (more : Config.more)
    (order_send : Mt5.OrderRequest -> Mt5.TradeResult) (now : Q)
    (engine : Engine) (signal : RiskManager.Signal) : Processed :=
  let unchanged := {| pr_engine := engine; pr_sent := None |} in
  if negb (running engine) then unchanged
  else
    let min_confidence := Config.get (Config.ai_confidence more) 0.75 in
    if Py.ltb (RiskManager.sig_confidence signal) min_confidence
    then unchanged
    else
      let symbol := RiskManager.sig_symbol signal in
      let cooling :=
        match last_trade_time engine symbol with
        | Some last =>
            let time_diff := now - last in
            let min_time_between_trades := 60 in
            Py.ltb time_diff min_time_between_trades
        | None => false
        end in
      if cooling then unchanged
      else
        match _execute_trade mt5 config order_send now
                (session_data engine) signal with
        | Py.Ok execution =>
            {| pr_engine := {|
                 running := running engine;
                 last_trade_time :=
                   if ex_success execution
                   then fun s =>
                          if String.eqb s symbol then Some now
                          else last_trade_time engine s
                   else last_trade_time engine;
                 session_data := ex_session_data execution
               |};
               pr_sent := ex_sent execution |}
        | Py.Raise _ => unchanged
        end.

(** The trade count equals the length of the log, and the win and loss
    counts are zero. *)
Definition session_counts_agree (sd : SessionData) : Prop :=
  sd_total_trades sd = Z.of_nat (List.length (sd_trades_log sd))
  /\ sd_winning_trades sd = 0%Z
  /\ sd_losing_trades sd = 0%Z.

(** One call of [_process_signal] by the trading loop: what the terminal,
    the configuration and the broker are at that moment, the time and the
    signal. *)
Record Step : Type := {
  step_mt5 : Mt5.Terminal;
  step_config : Config.t;
  step_more : Config.more;
  step_order_send : Mt5.OrderRequest -> Mt5.TradeResult;
  step_now : Q;
  step_signal : RiskManager.Signal
}.

(** The engine after a sequence of such calls, oldest first. *)
Definition process_signals (engine : Engine) (steps : list Step) : Engine :=
  fold_left
    (fun engine step =>
       pr_engine
         (_process_signal (step_mt5 step) (step_config step) (step_more step)
            (step_order_send step) (step_now step) engine (step_signal step)))
    steps engine.

(** The engine as [__init__] leaves it, once started. *)
Definition engine_init (running : bool) : Engine := {|
  running := running;
  last_trade_time := fun _ => None;
  session_data := session_data_init
|}.

End TradingEngine.

(* ================================================================== *)
(** ** Concrete accounts, terminals and configurations *)

(** [x] is a whole multiple of [step]. *)
Definition multiple_of (x step : Q) : Prop :=
exists k : Z, x == inject_Z k * step.

(** Modelled from the spec: the pip size as the unconditional constant
    [symbol_info.point * 10], with no test on the symbol name. *)
Definition pip_size_unconditional (symbol_info : Mt5.SymbolInfo) : Q :=
Mt5.point symbol_info * 10.

(** Modelled from the spec: the lot of the risk-based sizer, the
    percent-based stop-loss distance converted to pips with the
    unconditional pip size; 0.01 where that conversion divides by zero. *)
Definition risk_based_lot_unconditional (mt5 : Mt5.Terminal)
    (config : Config.t) (risk_amount : Q) (symbol : string)
    (symbol_info : Mt5.SymbolInfo) (signal : RiskManager.Signal) : Q :=
  let sl_value := Config.get (Config.sl_value config) 25 in
  let sl_unit := Config.get (Config.sl_unit config) "pips"%string in
  let current_price := Py.get (RiskManager.sig_price signal) 0 in
  let pip := pip_size_unconditional symbol_info in
  let converts :=
    negb (String.eqb sl_unit "pips") && String.eqb sl_unit "percent"
    && Py.gtb current_price 0 in
  if converts && Py.eqb pip 0 then 0.01
  else
    let sl_pips :=
      if String.eqb sl_unit "pips" then sl_value
      else if converts then current_price * (sl_value / 100) / pip
      else 25 in
    let sl_pips := if Py.leb sl_pips 0 then 25 else sl_pips in
    let pip_value := Utils.calculate_pip_value mt5 symbol 1.0 in
    let pip_value := if Py.leb pip_value 0 then 10 else pip_value in
    Utils.safe_divide risk_amount (sl_pips * pip_value) 0.

(** Modelled from the spec: a protective level from its configured value
    and unit, on the side of the price given by [above]. *)
Definition level_unconditional (unit : string) (value price pip : Q)
    (above : bool) : Q :=
  if String.eqb unit "pips" then
    if above then price + value * pip else price - value * pip
  else if String.eqb unit "price" then value
  else if String.eqb unit "percent" then
    if above then price * (1 + value / 100) else price * (1 - value / 100)
  else 0.

(** Modelled from the spec: take-profit and stop-loss prices with the
    unconditional pip size, rounded to the instrument's digits; no levels
    for an unknown symbol. *)
Definition tp_sl_unconditional (mt5 : Mt5.Terminal) (config : Config.t)
    (symbol action : string) (price : Q) : Q * Q :=
  match Mt5.symbol_info mt5 symbol with
  | None => (0, 0)
  | Some symbol_info =>
      let pip := pip_size_unconditional symbol_info in
      let buy := String.eqb action "buy" in
      let tp_price :=
        level_unconditional (Config.get (Config.tp_unit config) "pips"%string)
          (Config.get (Config.tp_value config) 50) price pip buy in
      let sl_price :=
        level_unconditional (Config.get (Config.sl_unit config) "pips"%string)
          (Config.get (Config.sl_value config) 25) price pip (negb buy) in
      let digits := Mt5.digits symbol_info in
      (if Py.gtb tp_price 0 then Py.round_nd tp_price digits else 0,
       if Py.gtb sl_price 0 then Py.round_nd sl_price digits else 0)
  end.

(** Modelled from the spec: the stop that trailing-stop maintenance asks
    for, [trailing_distance] unconditional pips behind the current price,
    when the position has no stop or the new one is tighter. *)
Definition trailing_stop_unconditional (mt5 : Mt5.Terminal)
    (position : Mt5.Position) (trailing_distance : Q)
    : option TradingEngine.ModifyCall :=
  match Mt5.symbol_info mt5 (Mt5.symbol position),
        Mt5.symbol_info_tick mt5 (Mt5.symbol position) with
  | Some symbol_info, Some tick =>
      let pip := pip_size_unconditional symbol_info in
      let long := (Mt5.type position =? Mt5.POSITION_TYPE_BUY)%Z in
      let new_sl :=
        if long then Mt5.bid tick - trailing_distance * pip
        else Mt5.ask tick + trailing_distance * pip in
      let tighter :=
        if long then Py.gtb new_sl (Mt5.sl position)
        else Py.ltb new_sl (Mt5.sl position) in
      if Py.eqb (Mt5.sl position) 0 || tighter
      then Some {| TradingEngine.mc_ticket := Mt5.ticket position;
                   TradingEngine.mc_sl := new_sl;
                   TradingEngine.mc_tp := Mt5.tp position |}
      else None
  | _, _ => None
  end.

Module Scenario.

(** An account with no open exposure: equity, free margin as given, no
    margin in use. *)
Definition flat_account (balance equity : Q) : Mt5.AccountInfo := {|
  Mt5.balance := balance;
  Mt5.equity := equity;
  Mt5.margin := 0;
  Mt5.margin_free := balance;
  Mt5.margin_level := 0
|}.

(** A terminal that reports [account_info] and no open position. *)
Definition idle_terminal (account_info : option Mt5.AccountInfo) : Mt5.Terminal := {|
  Mt5.account_info := account_info;
  Mt5.symbol_info := fun _ => None;
  Mt5.symbol_info_tick := fun _ => None;
  Mt5.positions_get := [];
  Mt5.positions_total := 0
|}.

(** Statistics of a day that started at [start_balance], no trade yet. *)
Definition fresh_day (today : Z) (start_balance : Q) : RiskManager.DailyStats := {|
  RiskManager.start_balance := start_balance;
  RiskManager.current_profit := 0;
  RiskManager.trades_today := 0;
  RiskManager.winning_trades := 0;
  RiskManager.losing_trades := 0;
  RiskManager.consecutive_losses := 0;
  RiskManager.max_drawdown_today := 0;
  RiskManager.last_reset := today
|}.

(** [Config.empty] with the three risk-gate limits set. *)
Definition limits (max_daily_loss max_drawdown : Q) (auto_stop : option bool)
    (max_loss_streak : option Z) : Config.t := {|
  Config.max_daily_loss := Some max_daily_loss;
  Config.daily_profit_target := None;
  Config.max_drawdown := Some max_drawdown;
  Config.auto_stop_drawdown := auto_stop;
  Config.max_positions := None;
  Config.max_loss_streak := max_loss_streak;
  Config.risk_percent := None;
  Config.auto_lot := None;
  Config.lot_size := None;
  Config.sl_value := None;
  Config.sl_unit := None;
  Config.tp_value := None;
  Config.tp_unit := None;
  Config.trailing_stop := None;
  Config.trailing_distance := None
|}.

(** The gold instrument of [mock_mt5]. *)
Definition xauusd : Mt5.SymbolInfo := {|
  Mt5.point := 0.01;
  Mt5.digits := 2;
  Mt5.volume_min := 0.01;
  Mt5.volume_max := 100;
  Mt5.volume_step := 0.01;
  Mt5.trade_contract_size := 100000
|}.

(** An instrument with the given volume constraints. *)
Definition instrument (volume_min volume_max volume_step : Q) : Mt5.SymbolInfo := {|
  Mt5.point := 0.01;
  Mt5.digits := 2;
  Mt5.volume_min := volume_min;
  Mt5.volume_max := volume_max;
  Mt5.volume_step := volume_step;
  Mt5.trade_contract_size := 100000
|}.

(** A terminal that knows one instrument under every name, quoted at
    [bid]/[ask]. *)
Definition quoting_terminal (account_info : option Mt5.AccountInfo)
    (symbol_info : Mt5.SymbolInfo) (bid ask : Q) : Mt5.Terminal := {|
  Mt5.account_info := account_info;
  Mt5.symbol_info := fun _ => Some symbol_info;
  Mt5.symbol_info_tick := fun _ => Some {| Mt5.bid := bid; Mt5.ask := ask |};
  Mt5.positions_get := [];
  Mt5.positions_total := 0
|}.

(** An open gold position of the bot. *)
Definition gold_position (type : Z) (sl : Q) : Mt5.Position := {|
  Mt5.ticket := 1;
  Mt5.symbol := "XAUUSD";
  Mt5.type := type;
  Mt5.sl := sl;
  Mt5.tp := 0;
  Mt5.magic := 234000
|}.

(** A signal without a reference price. *)
Definition signal (action : string) : RiskManager.Signal := {|
  RiskManager.sig_action := action;
  RiskManager.sig_symbol := "XAUUSD";
  RiskManager.sig_strategy := "Scalping";
  RiskManager.sig_confidence := 0.8;
  RiskManager.sig_price := None
|}.

(** A broker that accepts every order under ticket 42. *)
Definition accepting_broker (request : Mt5.OrderRequest) : Mt5.TradeResult :=
  {| Mt5.retcode := Mt5.TRADE_RETCODE_DONE; Mt5.order := 42 |}.

(** A configuration with a fixed lot instead of automatic sizing. *)
Definition manual_lot (lot_size : Q) : Config.t := {|
  Config.max_daily_loss := None;
  Config.daily_profit_target := None;
  Config.max_drawdown := None;
  Config.auto_stop_drawdown := None;
  Config.max_positions := None;
  Config.max_loss_streak := None;
  Config.risk_percent := None;
  Config.auto_lot := Some false;
  Config.lot_size := Some lot_size;
  Config.sl_value := None;
  Config.sl_unit := None;
  Config.tp_value := None;
  Config.tp_unit := None;
  Config.trailing_stop := None;
  Config.trailing_distance := None
|}.

(** A console whose encoding has none of the symbols that open the
    sizer's messages: [print] raises on them and prints the plain message
    of [logger] itself. *)
Definition ascii_console : Utils.Console := {|
  Utils.print := fun msg =>
    match msg with
    | Utils.FileLoggingFailed _ => Py.Ok tt
    | _ => Py.Raise Py.UnicodeEncodeError
    end;
  Utils.write_log := fun _ => Py.Ok tt
|}.

(** No further key set. *)
Definition no_more : Config.more := {|
  Config.emergency_stop_threshold := None;
  Config.avoid_news := None;
  Config.ai_confidence := None
|}.

End Scenario.

(* ================================================================== *)
(** * Properties *)

(** ** Comparison operators *)

Lemma gtb_spec (a b : Q) : Py.gtb a b = true <-> b < a.
Proof.
  unfold Py.gtb, Py.ltb. rewrite negb_true_iff.
  split; intro H.
  - apply Qnot_le_lt. intro Hle. apply Qle_bool_iff in Hle. congruence.
  - destruct (Qle_bool a b) eqn:E; [|reflexivity].
    apply Qle_bool_iff in E. lra.
Qed.

Lemma ltb_spec (a b : Q) : Py.ltb a b = true <-> a < b.
Proof. exact (gtb_spec b a). Qed.

Lemma leb_spec (a b : Q) : Py.leb a b = true <-> a <= b.
Proof. unfold Py.leb. apply Qle_bool_iff. Qed.

Lemma eqb_spec (a b : Q) : Py.eqb a b = true <-> a == b.
Proof. unfold Py.eqb. apply Qeq_bool_iff. Qed.

Lemma gtb_false (a b : Q) : Py.gtb a b = false <-> a <= b.
Proof.
  split; intro H.
  - apply Qnot_lt_le. intro Hlt. apply gtb_spec in Hlt. congruence.
  - destruct (Py.gtb a b) eqn:E; [|reflexivity].
    apply gtb_spec in E. lra.
Qed.

Lemma ltb_false (a b : Q) : Py.ltb a b = false <-> b <= a.
Proof. exact (gtb_false b a). Qed.

Lemma eqb_false (a b : Q) : Py.eqb a b = false <-> ~ a == b.
Proof.
  split; intro H.
  - intro Heq. apply eqb_spec in Heq. congruence.
  - destruct (Py.eqb a b) eqn:E; [|reflexivity].
    apply eqb_spec in E. contradiction.
Qed.

(** [max] and [min] are the order-theoretic ones, up to [==]. *)
Lemma max_ub_l (a b : Q) : a <= Py.max a b.
Proof.
  unfold Py.max. destruct (Py.gtb b a) eqn:E.
  - apply gtb_spec in E. lra.
  - lra.
Qed.

Lemma max_ub_r (a b : Q) : b <= Py.max a b.
Proof.
  unfold Py.max. destruct (Py.gtb b a) eqn:E.
  - lra.
  - apply gtb_false in E. lra.
Qed.

Lemma max_cases (a b : Q) : Py.max a b = a \/ Py.max a b = b.
Proof. unfold Py.max. destruct (Py.gtb b a); auto. Qed.

Lemma min_lb_l (a b : Q) : Py.min a b <= a.
Proof.
  unfold Py.min. destruct (Py.ltb b a) eqn:E.
  - apply ltb_spec in E. lra.
  - lra.
Qed.

Lemma min_lb_r (a b : Q) : Py.min a b <= b.
Proof.
  unfold Py.min. destruct (Py.ltb b a) eqn:E.
  - lra.
  - apply ltb_false in E. lra.
Qed.

(** A handler that returns a value makes the whole block return. *)
Lemma try_except_returns {A : Type} (body : Py.result A) (v : A) :
  exists r, Py.try_except body (fun _ => Py.Ok v) = Py.Ok r.
Proof. destruct body as [a|e]; simpl; eauto. Qed.

(** ** Rounding *)

(** An integer rounds to itself. *)
Lemma round_inject (q : Q) (n : Z) : q == inject_Z n -> Py.round q = n.
Proof.
  intro H. unfold Py.round.
  assert (Hf : Qfloor q = n) by (rewrite (Qfloor_comp _ _ H); apply Qfloor_Z).
  rewrite Hf.
  destruct (Qcompare_spec (q - inject_Z n) (1 # 2));
    [exfalso; lra | reflexivity | exfalso; lra].
Qed.

Lemma round_floor_bounds (q : Q) :
  (Qfloor q <= Py.round q <= Qfloor q + 1)%Z.
Proof.
  unfold Py.round.
  destruct (Qcompare _ _); [destruct (Z.even _)| |]; lia.
Qed.

(** Rounding never crosses an integer bound from below. *)
Lemma round_le_int (q : Q) (n : Z) : q <= inject_Z n -> (Py.round q <= n)%Z.
Proof.
  intro H.
  assert (Hf : (Qfloor q <= n)%Z).
  { rewrite <- (Qfloor_Z n). apply Qfloor_resp_le. exact H. }
  destruct (Z.eq_dec (Qfloor q) n) as [E | E].
  - assert (Hq : q == inject_Z n).
    { pose proof (Qfloor_le q) as Hl. rewrite E in Hl. lra. }
    rewrite (round_inject q n Hq). lia.
  - pose proof (round_floor_bounds q). lia.
Qed.

Lemma round_mono (p q : Q) : p <= q -> (Py.round p <= Py.round q)%Z.
Proof.
  intro H.
  pose proof (Qfloor_resp_le _ _ H) as Hf.
  destruct (Z.eq_dec (Qfloor p) (Qfloor q)) as [E | E].
  - unfold Py.round. rewrite E.
    destruct (Qcompare_spec (p - inject_Z (Qfloor q)) (1 # 2));
      destruct (Qcompare_spec (q - inject_Z (Qfloor q)) (1 # 2));
      try destruct (Z.even (Qfloor q)); try lia; exfalso; lra.
  - pose proof (round_floor_bounds p). pose proof (round_floor_bounds q). lia.
Qed.

(** Rounding to two decimals keeps a whole number of hundredths. *)
Lemma round_nd_2_on_grid (x : Q) (n : Z) :
  x * 100 == inject_Z n -> Py.round_nd x 2 == x.
Proof.
  intro H. unfold Py.round_nd. change (Qpower 10 2) with 100.
  rewrite (round_inject _ _ H). rewrite <- H. field.
Qed.

Lemma on_grid_mono (step : Q) (j k : Z) :
  0 < step -> (j <= k)%Z -> inject_Z j * step <= inject_Z k * step.
Proof.
  intros Hs H. apply Qmult_le_r; [exact Hs|]. rewrite <- Zle_Qle. exact H.
Qed.

Lemma on_grid_le (step : Q) (j k : Z) :
  0 < step -> inject_Z j * step <= inject_Z k * step -> (j <= k)%Z.
Proof.
  intros Hs H. apply Qmult_le_r in H; [|exact Hs]. rewrite Zle_Qle. exact H.
Qed.

(* ================================================================== *)
(** ** The risk gate *)

Section RiskGate.

Import RiskManager.

(** The loss figure that [_check_daily_loss_limit] compares with the limit
    is the loss divided by a hundred start balances. *)
Lemma check_daily_loss_limit_spec (a : Mt5.AccountInfo) (config : Config.t)
    (st : DailyStats) :
  ~ start_balance st == 0 ->
  fst (_check_daily_loss_limit a config st) = false <->
  Config.get (Config.max_daily_loss config) 5.0
    < (start_balance st - Mt5.balance a) / (start_balance st * 100).
Proof.
  intro Hne. unfold _check_daily_loss_limit.
  apply eqb_false in Hne. rewrite Hne.
  unfold Utils.safe_divide.
  assert (Hz : Py.eqb (start_balance st * 100) 0 = false).
  { apply eqb_false. apply eqb_false in Hne. intro H. apply Hne. lra. }
  rewrite Hz.
  destruct (Py.gtb _ _) eqn:E; simpl.
  - apply gtb_spec in E. tauto.
  - apply gtb_false in E. split; [discriminate|]. intro H. lra.
Qed.

(** With a positive start balance, a non-negative balance and a limit in
    the range that [validate_config] accepts (at least 0.1), the daily-loss
    check cannot block. *)
Lemma check_daily_loss_limit_never_blocks (a : Mt5.AccountInfo)
    (config : Config.t) (st : DailyStats) :
  0 < start_balance st ->
  0 <= Mt5.balance a ->
  0.1 <= Config.get (Config.max_daily_loss config) 5.0 ->
  fst (_check_daily_loss_limit a config st) = true.
Proof.
  intros Hpos Hbal Hmax.
  destruct (fst (_check_daily_loss_limit a config st)) eqn:E; [reflexivity|].
  apply check_daily_loss_limit_spec in E; [|lra].
  exfalso.
  assert (H : (start_balance st - Mt5.balance a) / (start_balance st * 100)
              <= 1 # 100).
  { apply Qle_shift_div_r; lra. }
  lra.
Qed.

(** C1 (evaluation at the scenario of the claim): with start balance 10000,
    balance 9400 and a 5.0 daily-loss limit the loss is 6 percent, yet the
    daily-loss check passes and [can_trade] returns true on an otherwise
    healthy account. *)
Theorem daily_loss_scenario_not_blocked :
  let config := Scenario.limits 5.0 10 None None in
  let account := Scenario.flat_account 9400 9400 in
  let st := Scenario.fresh_day 1 10000 in
  (start_balance st - Mt5.balance account) / start_balance st * 100 == 6
  /\ fst (_check_daily_loss_limit account config st) = true
  /\ fst (can_trade 1 (Scenario.idle_terminal (Some account)) config st) = true.
Proof. repeat split. Qed.

(** C2 (evaluation at a failing input): start balance 10000, equity 9000,
    auto-stop enabled, 5.0 drawdown limit.  The drawdown from the peak is
    10 percent, yet the drawdown check passes and [can_trade] returns
    true. *)
Theorem drawdown_scenario_not_blocked :
  let config := Scenario.limits 5.0 5.0 (Some true) None in
  let account := Scenario.flat_account 10000 9000 in
  let st := Scenario.fresh_day 1 10000 in
  let peak := Py.max (start_balance st) (Mt5.equity account) in
  (peak - Mt5.equity account) / peak * 100 == 10
  /\ _check_max_drawdown account config st = true
  /\ fst (can_trade 1 (Scenario.idle_terminal (Some account)) config st) = true.
Proof. repeat split. Qed.

(** With auto-stop disabled the drawdown check passes whatever the
    drawdown. *)
Lemma check_max_drawdown_auto_stop_off (a : Mt5.AccountInfo)
    (config : Config.t) (st : DailyStats) :
  Config.auto_stop_drawdown config = Some false ->
  _check_max_drawdown a config st = true.
Proof. intro H. unfold _check_max_drawdown. rewrite H. reflexivity. Qed.

(** *** The gate as a conjunction *)

(** [_check_daily_loss_limit] touches nothing but the start balance. *)
Lemma check_daily_loss_limit_counters (a : Mt5.AccountInfo)
    (config : Config.t) (st : DailyStats) :
  let st' := snd (_check_daily_loss_limit a config st) in
  consecutive_losses st' = consecutive_losses st
  /\ trades_today st' = trades_today st
  /\ winning_trades st' = winning_trades st
  /\ losing_trades st' = losing_trades st.
Proof.
  unfold _check_daily_loss_limit.
  destruct (Py.eqb (start_balance st) 0);
    destruct (Py.gtb _ _); simpl; auto.
Qed.

(** The profit-target check returns true on every input. *)
Lemma check_daily_profit_target_true (a : Mt5.AccountInfo)
    (config : Config.t) (st : DailyStats) :
  _check_daily_profit_target a config st = true.
Proof.
  unfold _check_daily_profit_target.
  destruct (Py.eqb (start_balance st) 0); [reflexivity|].
  destruct (Py.geb _ _); reflexivity.
Qed.

(** With a readable account, [can_trade] is the conjunction of its checks,
    evaluated on the statistics left by the daily reset and the seeding of
    the start balance. *)
Lemma can_trade_conj (today : Z) (mt5 : Mt5.Terminal) (config : Config.t)
    (st : DailyStats) (a : Mt5.AccountInfo) :
  Mt5.account_info mt5 = Some a ->
  let r := _check_daily_loss_limit a config (_check_daily_reset today mt5 st) in
  can_trade today mt5 config st =
  (fst r
   && _check_daily_profit_target a config (snd r)
   && _check_max_drawdown a config (snd r)
   && _check_position_limits mt5 config
   && _check_loss_streak config (snd r)
   && _check_margin_requirements a,
   snd r).
Proof.
  intros Ha r. unfold can_trade. rewrite Ha. fold r.
  destruct r as [ok st1]. simpl.
  destruct ok; simpl; [|reflexivity].
  destruct (_check_daily_profit_target a config st1); simpl; [|reflexivity].
  destruct (_check_max_drawdown a config st1); simpl; [|reflexivity].
  destruct (_check_position_limits mt5 config); simpl; [|reflexivity].
  destruct (_check_loss_streak config st1); simpl; [|reflexivity].
  destruct (_check_margin_requirements a); reflexivity.
Qed.

(** Without a readable account [can_trade] blocks. *)
Lemma can_trade_no_account (today : Z) (mt5 : Mt5.Terminal)
    (config : Config.t) (st : DailyStats) :
  Mt5.account_info mt5 = None ->
  fst (can_trade today mt5 config st) = false.
Proof. intro H. unfold can_trade. rewrite H. reflexivity. Qed.

(** *** Loss streak *)

(** C4 (as stated, refuted): yesterday's statistics carry a streak of five
    losses against a limit of three; the first [can_trade] of the new day
    resets the streak before the streak check and returns true. *)
Lemma loss_streak_rollover_counterexample :
  let config := Scenario.limits 5.0 5.0 None (Some 3%Z) in
  let account := Scenario.flat_account 10000 10000 in
  let st := {| start_balance := 10000;
               current_profit := 0;
               trades_today := 5;
               winning_trades := 0;
               losing_trades := 5;
               consecutive_losses := 5;
               max_drawdown_today := 0;
               last_reset := 0 |} in
  (consecutive_losses st >= Config.get (Config.max_loss_streak config) 3)%Z
  /\ fst (can_trade 1 (Scenario.idle_terminal (Some account)) config st) = true.
Proof. split; [vm_compute; discriminate | reflexivity]. Qed.

(** When no new day has begun the daily reset leaves the statistics as they
    are. *)
Lemma check_daily_reset_same_day (today : Z) (mt5 : Mt5.Terminal)
    (st : DailyStats) :
  (today <= last_reset st)%Z ->
  _check_daily_reset today mt5 st = st.
Proof.
  intro H. unfold _check_daily_reset.
  destruct (last_reset st <? today)%Z eqn:E; [|reflexivity].
  apply Z.ltb_lt in E. lia.
Qed.

(** The streak check sees the count that the daily reset leaves. *)
Lemma can_trade_streak_after_reset (today : Z) (mt5 : Mt5.Terminal)
    (config : Config.t) (st : DailyStats) :
  (consecutive_losses (_check_daily_reset today mt5 st)
   >= Config.get (Config.max_loss_streak config) 3)%Z ->
  fst (can_trade today mt5 config st) = false.
Proof.
  intro Hstreak.
  destruct (Mt5.account_info mt5) as [a|] eqn:Ha.
  - rewrite (can_trade_conj today mt5 config st a Ha). cbv zeta. simpl fst.
    set (st0 := _check_daily_reset today mt5 st) in *.
    destruct (check_daily_loss_limit_counters a config st0) as [Hc _].
    assert (Hs : _check_loss_streak config
                   (snd (_check_daily_loss_limit a config st0)) = false).
    { unfold _check_loss_streak. rewrite Hc.
      destruct (_ >=? _)%Z eqn:E; [reflexivity|].
      rewrite Z.geb_leb in E. apply Z.leb_gt in E. lia. }
    rewrite Hs. rewrite andb_false_r. reflexivity.
  - apply can_trade_no_account. exact Ha.
Qed.

(** On the same day the count of the statistics themselves decides. *)
Corollary can_trade_streak_same_day (today : Z) (mt5 : Mt5.Terminal)
    (config : Config.t) (st : DailyStats) :
  (today <= last_reset st)%Z ->
  (consecutive_losses st >= Config.get (Config.max_loss_streak config) 3)%Z ->
  fst (can_trade today mt5 config st) = false.
Proof.
  intros Hday Hstreak. apply can_trade_streak_after_reset.
  rewrite check_daily_reset_same_day by exact Hday. exact Hstreak.
Qed.

(** C4 (amended): whenever the consecutive-loss count, as it stands after
    the daily-reset step of [can_trade] (unchanged on the day of the last
    reset, zero on the first call of a later day), has reached
    [max_loss_streak], [can_trade] returns false, whatever the account, the
    terminal and the other limits. *)
Theorem loss_streak_blocks (today : Z) (mt5 : Mt5.Terminal)
    (config : Config.t) (st : DailyStats) :
  (consecutive_losses (_check_daily_reset today mt5 st)
   >= Config.get (Config.max_loss_streak config) 3)%Z ->
  fst (can_trade today mt5 config st) = false.
Proof. exact (can_trade_streak_after_reset today mt5 config st). Qed.

Lemma loss_streak_blocks_witness :
  fst (can_trade 1
         (Scenario.idle_terminal (Some (Scenario.flat_account 10000 10000)))
         (Scenario.limits 5.0 5.0 None (Some 3%Z))
         {| start_balance := 10000;
            current_profit := 0;
            trades_today := 3;
            winning_trades := 0;
            losing_trades := 3;
            consecutive_losses := 3;
            max_drawdown_today := 0;
            last_reset := 1 |}) = false.
Proof.
  apply loss_streak_blocks. vm_compute. discriminate.
Defined.

(** *** Profit target *)

(** C8: when the day's profit percentage has reached the target, the
    profit-target check still passes, and [can_trade] returns true as soon
    as the other five checks pass. *)
Theorem profit_target_is_advisory (today : Z) (mt5 : Mt5.Terminal)
    (config : Config.t) (st : DailyStats) (a : Mt5.AccountInfo) :
  Mt5.account_info mt5 = Some a ->
  let r := _check_daily_loss_limit a config (_check_daily_reset today mt5 st) in
  Config.get (Config.daily_profit_target config) 10.0
    <= (Mt5.balance a - start_balance (snd r)) / start_balance (snd r) * 100 ->
  fst r = true ->
  _check_max_drawdown a config (snd r) = true ->
  _check_position_limits mt5 config = true ->
  _check_loss_streak config (snd r) = true ->
  _check_margin_requirements a = true ->
  _check_daily_profit_target a config (snd r) = true
  /\ fst (can_trade today mt5 config st) = true.
Proof.
  intros Ha r _ Hloss Hdd Hpos Hstreak Hmargin.
  split; [apply check_daily_profit_target_true|].
  rewrite (can_trade_conj today mt5 config st a Ha). fold r. simpl fst.
  rewrite Hloss, Hdd, Hpos, Hstreak, Hmargin, check_daily_profit_target_true.
  reflexivity.
Qed.

Lemma profit_target_is_advisory_witness :
  let a := Scenario.flat_account 11500 11500 in
  let st := Scenario.fresh_day 1 10000 in
  _check_daily_profit_target a Config.empty
    (snd (_check_daily_loss_limit a Config.empty
            (_check_daily_reset 1 (Scenario.idle_terminal (Some a)) st))) = true
  /\ fst (can_trade 1 (Scenario.idle_terminal (Some a)) Config.empty st) = true.
Proof.
  apply (profit_target_is_advisory 1
           (Scenario.idle_terminal (Some (Scenario.flat_account 11500 11500)))
           Config.empty (Scenario.fresh_day 1 10000)
           (Scenario.flat_account 11500 11500));
    [reflexivity | vm_compute; discriminate | reflexivity | reflexivity
    | reflexivity | reflexivity | reflexivity].
Defined.

End RiskGate.

(* ================================================================== *)
(** ** Trade recording *)

Section TradeRecording.

Import RiskManager.

Lemma counters_agree_init (today : Z) : counters_agree (daily_stats (init today)).
Proof. reflexivity. Qed.

Lemma counters_agree_record (rm : t) (symbol action : string)
    (lot_size entry_price exit_price profit : Q) :
  counters_agree (daily_stats rm) ->
  counters_agree
    (daily_stats (record_trade_result rm symbol action lot_size
                    entry_price exit_price profit)).
Proof.
  unfold counters_agree, record_trade_result. intro H.
  destruct (Py.gtb profit 0); simpl; lia.
Qed.

Lemma counters_agree_reset (today : Z) (mt5 : Mt5.Terminal) (st : DailyStats) :
  counters_agree st -> counters_agree (_check_daily_reset today mt5 st).
Proof.
  unfold counters_agree, _check_daily_reset. intro H.
  destruct (last_reset st <? today)%Z; simpl; [reflexivity | exact H].
Qed.

Lemma can_trade_counters (today : Z) (mt5 : Mt5.Terminal) (config : Config.t)
    (st : DailyStats) :
  counters_agree st -> counters_agree (snd (can_trade today mt5 config st)).
Proof.
  intro H. apply (counters_agree_reset today mt5) in H.
  destruct (Mt5.account_info mt5) as [a|] eqn:Ha.
  - rewrite (can_trade_conj today mt5 config st a Ha). cbv zeta. simpl snd.
    destruct (check_daily_loss_limit_counters a config
                (_check_daily_reset today mt5 st)) as (_ & Ht & Hw & Hl).
    unfold counters_agree in *. rewrite Ht, Hw, Hl. exact H.
  - unfold can_trade. rewrite Ha. exact H.
Qed.

Lemma counters_agree_perform (rm : t) (c : call) :
  counters_agree (daily_stats rm) -> counters_agree (daily_stats (perform rm c)).
Proof.
  intro H. destruct c; unfold perform, set_daily_stats; cbn [daily_stats].
  - apply counters_agree_record. exact H.
  - apply counters_agree_reset. exact H.
  - apply can_trade_counters. exact H.
Qed.

Lemma counters_agree_run (calls : list call) (rm : t) :
  counters_agree (daily_stats rm) ->
  counters_agree (daily_stats (run rm calls)).
Proof.
  revert rm. induction calls as [|c calls IH]; intros rm H; simpl.
  - exact H.
  - apply IH. apply counters_agree_perform. exact H.
Qed.

(** C6: after every sequence of calls to [record_trade_result],
    [_check_daily_reset] and [can_trade] on a new instance,
    [winning_trades + losing_trades = trades_today]; each recorded trade adds
    one to [trades_today] and one to exactly one of [winning_trades] and
    [losing_trades]; a daily reset that fires sets all three to zero, one
    that does not fire changes nothing. *)
Theorem counters_invariant :
  (forall (today : Z) (calls : list call),
     let st := daily_stats (run (init today) calls) in
     (winning_trades st + losing_trades st = trades_today st)%Z)
  /\ (forall (rm : t) (symbol action : string)
        (lot_size entry_price exit_price profit : Q),
        let st := daily_stats rm in
        let st' := daily_stats (record_trade_result rm symbol action lot_size
                                  entry_price exit_price profit) in
        (trades_today st' = trades_today st + 1)%Z
        /\ ((winning_trades st' = winning_trades st + 1
             /\ losing_trades st' = losing_trades st)%Z
            \/ (winning_trades st' = winning_trades st
                /\ losing_trades st' = losing_trades st + 1)%Z))
  /\ (forall (today : Z) (mt5 : Mt5.Terminal) (st : DailyStats),
        let st' := _check_daily_reset today mt5 st in
        if (last_reset st <? today)%Z
        then trades_today st' = 0%Z /\ winning_trades st' = 0%Z
             /\ losing_trades st' = 0%Z
        else st' = st).
Proof.
  split; [|split].
  - intros today calls. apply counters_agree_run. apply counters_agree_init.
  - intros rm symbol action lot_size entry_price exit_price profit.
    unfold record_trade_result.
    destruct (Py.gtb profit 0); simpl; split; auto.
  - intros today mt5 st. unfold _check_daily_reset.
    destruct (last_reset st <? today)%Z; simpl; auto.
Qed.

(** C9: a trade closed with a profit of exactly zero is booked as a loss:
    [losing_trades] and [consecutive_losses] go up by one, [winning_trades]
    stays, and the history entry is not a winning one. *)
Theorem zero_profit_is_a_loss (rm : t) (symbol action : string)
    (lot_size entry_price exit_price profit : Q) :
  profit == 0 ->
  let st := daily_stats rm in
  let rm' := record_trade_result rm symbol action lot_size
               entry_price exit_price profit in
  (losing_trades (daily_stats rm') = losing_trades st + 1)%Z
  /\ (consecutive_losses (daily_stats rm') = consecutive_losses st + 1)%Z
  /\ winning_trades (daily_stats rm') = winning_trades st
  /\ map tr_is_winning (position_history rm')
     = map tr_is_winning (position_history rm) ++ [false].
Proof.
  intros Hzero st rm'. subst st rm'. unfold record_trade_result.
  assert (E : Py.gtb profit 0 = false) by (apply gtb_false; lra).
  rewrite E. cbn [daily_stats position_history losing_trades
                  consecutive_losses winning_trades].
  repeat split. rewrite map_app. reflexivity.
Qed.

Lemma zero_profit_is_a_loss_witness :
  let rm := init 1 in
  let rm' := record_trade_result rm "XAUUSD" "buy" 0.01 1950 1950 (0 # 7) in
  (losing_trades (daily_stats rm') = 1)%Z
  /\ (consecutive_losses (daily_stats rm') = 1)%Z
  /\ winning_trades (daily_stats rm') = 0%Z
  /\ map tr_is_winning (position_history rm') = [false].
Proof.
  apply (zero_profit_is_a_loss (init 1) "XAUUSD" "buy" 0.01 1950 1950 (0 # 7)).
  reflexivity.
Defined.

(** A trade is a winning one exactly when its profit is strictly
    positive. *)
Lemma winning_iff_positive (rm : t) (symbol action : string)
    (lot_size entry_price exit_price profit : Q) :
  (winning_trades
     (daily_stats (record_trade_result rm symbol action lot_size
                     entry_price exit_price profit))
   = winning_trades (daily_stats rm) + 1)%Z
  <-> 0 < profit.
Proof.
  unfold record_trade_result.
  destruct (Py.gtb profit 0) eqn:E; simpl.
  - apply gtb_spec in E. split; [auto | lia].
  - apply gtb_false in E. split; [lia | lra].
Qed.

End TradeRecording.

(* ================================================================== *)
(** ** Pip size *)

Lemma risk_pip_size_eq (symbol : string) (symbol_info : Mt5.SymbolInfo) :
  RiskManager.pip_size symbol symbol_info = pip_size_unconditional symbol_info.
Proof.
  unfold RiskManager.pip_size, pip_size_unconditional.
  destruct (Py.contains "JPY" symbol); reflexivity.
Qed.

Lemma engine_pip_value_eq (symbol : string) (symbol_info : Mt5.SymbolInfo) :
  TradingEngine.pip_value symbol symbol_info
  = pip_size_unconditional symbol_info.
Proof.
  unfold TradingEngine.pip_value, pip_size_unconditional.
  destruct (Py.contains "JPY" symbol); reflexivity.
Qed.

(** The risk-based sizer against its unconditional form. *)
Lemma calculate_risk_based_lot_unconditional (mt5 : Mt5.Terminal)
    (config : Config.t) (risk_amount : Q) (symbol : string)
    (symbol_info : Mt5.SymbolInfo) (signal : RiskManager.Signal) :
  RiskManager._calculate_risk_based_lot mt5 config risk_amount symbol
    symbol_info signal
  = Py.Ok (risk_based_lot_unconditional mt5 config risk_amount symbol
             symbol_info signal).
Proof.
  unfold RiskManager._calculate_risk_based_lot,
    RiskManager._calculate_risk_based_lot_logged,
    RiskManager._calculate_risk_based_lot_body,
    risk_based_lot_unconditional.
  rewrite risk_pip_size_eq. cbv zeta.
  destruct (String.eqb (Config.get (Config.sl_unit config) "pips"%string)
              "pips"); [reflexivity|].
  destruct (String.eqb (Config.get (Config.sl_unit config) "pips"%string)
              "percent"); [|reflexivity].
  destruct (Py.gtb (Py.get (RiskManager.sig_price signal) 0) 0);
    [|reflexivity].
  unfold Py.div.
  destruct (Py.eqb (pip_size_unconditional symbol_info) 0); reflexivity.
Qed.

(** The protective levels against their unconditional form. *)
Lemma calculate_tp_sl_unconditional (mt5 : Mt5.Terminal) (config : Config.t)
    (symbol action : string) (price : Q) :
  TradingEngine._calculate_tp_sl mt5 config symbol action price
  = Py.Ok (tp_sl_unconditional mt5 config symbol action price).
Proof.
  unfold TradingEngine._calculate_tp_sl, TradingEngine._calculate_tp_sl_body,
    tp_sl_unconditional, level_unconditional.
  destruct (Mt5.symbol_info mt5 symbol) as [si|]; cbv zeta;
    cbn [Py.attr Py.bind].
  - rewrite engine_pip_value_eq.
    destruct (String.eqb (Config.get (Config.tp_unit config) "pips"%string)
                "pips");
    destruct (String.eqb (Config.get (Config.tp_unit config) "pips"%string)
                "price");
    destruct (String.eqb (Config.get (Config.tp_unit config) "pips"%string)
                "percent");
    destruct (String.eqb (Config.get (Config.sl_unit config) "pips"%string)
                "pips");
    destruct (String.eqb (Config.get (Config.sl_unit config) "pips"%string)
                "price");
    destruct (String.eqb (Config.get (Config.sl_unit config) "pips"%string)
                "percent");
    destruct (String.eqb action "buy"); reflexivity.
  - destruct (String.eqb (Config.get (Config.tp_unit config) "pips"%string)
                "pips");
    destruct (String.eqb (Config.get (Config.tp_unit config) "pips"%string)
                "price");
    destruct (String.eqb (Config.get (Config.tp_unit config) "pips"%string)
                "percent");
    destruct (String.eqb (Config.get (Config.sl_unit config) "pips"%string)
                "pips");
    destruct (String.eqb (Config.get (Config.sl_unit config) "pips"%string)
                "price");
    destruct (String.eqb (Config.get (Config.sl_unit config) "pips"%string)
                "percent");
    destruct (String.eqb action "buy"); reflexivity.
Qed.

(** Trailing-stop maintenance against its unconditional form. *)
Lemma update_trailing_stop_unconditional (mt5 : Mt5.Terminal)
    (position : Mt5.Position) (trailing_distance : Q) :
  TradingEngine._update_trailing_stop mt5 position trailing_distance
  = Py.Ok (trailing_stop_unconditional mt5 position trailing_distance).
Proof.
  unfold TradingEngine._update_trailing_stop,
    TradingEngine._update_trailing_stop_body, trailing_stop_unconditional.
  destruct (Mt5.symbol_info mt5 (Mt5.symbol position)) as [si|];
    cbn [Py.attr Py.bind Py.try_except]; [|reflexivity].
  rewrite engine_pip_value_eq. cbv zeta.
  destruct (Mt5.symbol_info_tick mt5 (Mt5.symbol position)) as [tick|];
    cbn [Py.attr Py.bind Py.try_except].
  - destruct (Mt5.type position =? Mt5.POSITION_TYPE_BUY)%Z;
      cbn [Py.bind];
      match goal with
      | |- context [if ?c then Py.Ok (Some _) else Py.Ok None] =>
          destruct c
      end; reflexivity.
  - destruct (Mt5.type position =? Mt5.POSITION_TYPE_BUY)%Z; reflexivity.
Qed.

(** C10: for every symbol, whether or not its name contains [JPY],
    [_calculate_risk_based_lot], [_calculate_tp_sl] and
    [_update_trailing_stop] return what they return with the pip size the
    unconditional [symbol_info.point * 10]: the sizer's lot with the
    percent-based stop-loss distance divided by that constant, the
    take-profit and stop-loss prices that many pips from the price, the
    trailing stop that many pips behind the quote.  The conditional
    expression itself has that constant in both arms. *)
Theorem pip_size_ignores_jpy (mt5 : Mt5.Terminal) (config : Config.t)
    (risk_amount : Q) (symbol action : string)
    (symbol_info : Mt5.SymbolInfo) (signal : RiskManager.Signal) (price : Q)
    (position : Mt5.Position) (trailing_distance : Q) :
  RiskManager._calculate_risk_based_lot mt5 config risk_amount symbol
    symbol_info signal
  = Py.Ok (risk_based_lot_unconditional mt5 config risk_amount symbol
             symbol_info signal)
  /\ TradingEngine._calculate_tp_sl mt5 config symbol action price
     = Py.Ok (tp_sl_unconditional mt5 config symbol action price)
  /\ TradingEngine._update_trailing_stop mt5 position trailing_distance
     = Py.Ok (trailing_stop_unconditional mt5 position trailing_distance)
  /\ RiskManager.pip_size symbol symbol_info = Mt5.point symbol_info * 10
  /\ TradingEngine.pip_value symbol symbol_info = Mt5.point symbol_info * 10.
Proof.
  split; [|split; [|split; [|split]]].
  - apply calculate_risk_based_lot_unconditional.
  - apply calculate_tp_sl_unconditional.
  - apply update_trailing_stop_unconditional.
  - apply risk_pip_size_eq.
  - apply engine_pip_value_eq.
Qed.

(** The test on the name is a real one. *)
Example contains_jpy :
  Py.contains "JPY" "USDJPY" = true /\ Py.contains "JPY" "XAUUSD" = false.
Proof. split; reflexivity. Qed.

(** The same instrument data under a name with [JPY] and under one
    without give the same levels: 50 and 25 pips of 0.1 from 1950. *)
Example jpy_name_same_levels :
  let mt5 := Scenario.quoting_terminal None Scenario.xauusd 1950 1950.5 in
  exists tp sl,
    TradingEngine._calculate_tp_sl mt5 Config.empty "USDJPY" "buy" 1950
    = Py.Ok (tp, sl)
    /\ TradingEngine._calculate_tp_sl mt5 Config.empty "XAUUSD" "buy" 1950
       = Py.Ok (tp, sl)
    /\ tp == 1955 /\ sl == 1947.5.
Proof. do 2 eexists. repeat split. Qed.

(** The trailing stop of a position does not depend on the name of its
    symbol beyond the lookups in the terminal. *)
Lemma update_trailing_stop_body_unconditional (mt5 : Mt5.Terminal)
    (position : Mt5.Position) (trailing_distance : Q)
    (symbol_info : Mt5.SymbolInfo) (tick : Mt5.Tick) :
  Mt5.symbol_info mt5 (Mt5.symbol position) = Some symbol_info ->
  Mt5.symbol_info_tick mt5 (Mt5.symbol position) = Some tick ->
  TradingEngine._update_trailing_stop_body mt5 position trailing_distance
  = let pip := pip_size_unconditional symbol_info in
    let call new_sl := {| TradingEngine.mc_ticket := Mt5.ticket position;
                          TradingEngine.mc_sl := new_sl;
                          TradingEngine.mc_tp := Mt5.tp position |} in
    if (Mt5.type position =? Mt5.POSITION_TYPE_BUY)%Z then
      let new_sl := Mt5.bid tick - trailing_distance * pip in
      if Py.eqb (Mt5.sl position) 0 || Py.gtb new_sl (Mt5.sl position)
      then Py.Ok (Some (call new_sl)) else Py.Ok None
    else
      let new_sl := Mt5.ask tick + trailing_distance * pip in
      if Py.eqb (Mt5.sl position) 0 || Py.ltb new_sl (Mt5.sl position)
      then Py.Ok (Some (call new_sl)) else Py.Ok None.
Proof.
  intros Hsi Htick. unfold TradingEngine._update_trailing_stop_body.
  rewrite Hsi, Htick. cbn [Py.attr Py.bind].
  rewrite engine_pip_value_eq.
  destruct (Mt5.type position =? Mt5.POSITION_TYPE_BUY)%Z; reflexivity.
Qed.

(* ================================================================== *)
(** ** Trailing stop *)

Section TrailingStop.

Import TradingEngine.

(** C7: for a position whose stop is not zero, [_update_trailing_stop]
    calls [_modify_position] only with the level it has just computed, and
    only when that level is strictly above the current stop for a buy
    position, strictly below it for any other position. *)
Theorem trailing_stop_only_tightens (mt5 : Mt5.Terminal)
    (position : Mt5.Position) (trailing_distance : Q) (call : ModifyCall) :
  ~ Mt5.sl position == 0 ->
  _update_trailing_stop mt5 position trailing_distance = Py.Ok (Some call) ->
  exists symbol_info tick,
    Mt5.symbol_info mt5 (Mt5.symbol position) = Some symbol_info
    /\ Mt5.symbol_info_tick mt5 (Mt5.symbol position) = Some tick
    /\ mc_ticket call = Mt5.ticket position
    /\ mc_tp call = Mt5.tp position
    /\ if (Mt5.type position =? Mt5.POSITION_TYPE_BUY)%Z
       then mc_sl call
            = Mt5.bid tick
              - trailing_distance * pip_value (Mt5.symbol position) symbol_info
            /\ Mt5.sl position < mc_sl call
       else mc_sl call
            = Mt5.ask tick
              + trailing_distance * pip_value (Mt5.symbol position) symbol_info
            /\ mc_sl call < Mt5.sl position.
Proof.
  intros Hsl Hcall.
  unfold _update_trailing_stop, _update_trailing_stop_body in Hcall.
  apply eqb_false in Hsl.
  destruct (Mt5.symbol_info mt5 (Mt5.symbol position)) as [si|];
    [|discriminate Hcall].
  destruct (Mt5.symbol_info_tick mt5 (Mt5.symbol position)) as [tick|].
  - exists si, tick. split; [reflexivity|]. split; [reflexivity|].
    rewrite Hsl in Hcall. cbn [Py.attr Py.bind orb] in Hcall.
    destruct (Mt5.type position =? Mt5.POSITION_TYPE_BUY)%Z;
      cbn [Py.attr Py.bind Py.try_except] in Hcall.
    + destruct (Py.gtb _ _) eqn:E in Hcall; [|discriminate Hcall].
      injection Hcall as <-. cbn [mc_ticket mc_sl mc_tp].
      apply gtb_spec in E. auto.
    + destruct (Py.ltb _ _) eqn:E in Hcall; [|discriminate Hcall].
      injection Hcall as <-. cbn [mc_ticket mc_sl mc_tp].
      apply ltb_spec in E. auto.
  - cbn [Py.attr Py.bind] in Hcall.
    destruct (Mt5.type position =? Mt5.POSITION_TYPE_BUY)%Z;
      discriminate Hcall.
Qed.

Lemma trailing_stop_only_tightens_witness :
  let mt5 := Scenario.quoting_terminal None Scenario.xauusd 1950 1950.5 in
  let position := Scenario.gold_position Mt5.POSITION_TYPE_BUY 1900 in
  let call := {| mc_ticket := 1; mc_sl := 1950 - 15 * (0.01 * 10); mc_tp := 0 |} in
  _update_trailing_stop mt5 position 15 = Py.Ok (Some call)
  /\ Mt5.sl position < mc_sl call.
Proof.
  intros mt5 position call.
  assert (Hcall : _update_trailing_stop mt5 position 15 = Py.Ok (Some call))
    by reflexivity.
  split; [exact Hcall|].
  destruct (trailing_stop_only_tightens mt5 position 15 call)
    as (si & tick & _ & _ & _ & _ & H).
  - vm_compute. discriminate.
  - exact Hcall.
  - exact (proj2 H).
Defined.

(** The other direction: with symbol data and a quote at hand, a strictly
    better level is always sent. *)
Lemma trailing_stop_moves_when_better (mt5 : Mt5.Terminal)
    (position : Mt5.Position) (trailing_distance : Q)
    (symbol_info : Mt5.SymbolInfo) (tick : Mt5.Tick) :
  Mt5.symbol_info mt5 (Mt5.symbol position) = Some symbol_info ->
  Mt5.symbol_info_tick mt5 (Mt5.symbol position) = Some tick ->
  Mt5.type position = Mt5.POSITION_TYPE_BUY ->
  Mt5.sl position
    < Mt5.bid tick
      - trailing_distance * pip_value (Mt5.symbol position) symbol_info ->
  exists call,
    _update_trailing_stop mt5 position trailing_distance = Py.Ok (Some call).
Proof.
  intros Hsi Htick Hbuy Hlt.
  unfold _update_trailing_stop, _update_trailing_stop_body.
  rewrite Hsi, Htick, Hbuy. cbn [Py.attr Py.bind Z.eqb Mt5.POSITION_TYPE_BUY].
  apply gtb_spec in Hlt. rewrite Hlt, orb_true_r. simpl. eauto.
Qed.

(** A level that is not strictly better leaves a non-zero stop alone. *)
Lemma trailing_stop_keeps_when_not_better (mt5 : Mt5.Terminal)
    (position : Mt5.Position) (trailing_distance : Q)
    (symbol_info : Mt5.SymbolInfo) (tick : Mt5.Tick) :
  Mt5.symbol_info mt5 (Mt5.symbol position) = Some symbol_info ->
  Mt5.symbol_info_tick mt5 (Mt5.symbol position) = Some tick ->
  Mt5.type position = Mt5.POSITION_TYPE_BUY ->
  ~ Mt5.sl position == 0 ->
  Mt5.bid tick
    - trailing_distance * pip_value (Mt5.symbol position) symbol_info
    <= Mt5.sl position ->
  _update_trailing_stop mt5 position trailing_distance = Py.Ok None.
Proof.
  intros Hsi Htick Hbuy Hsl Hle.
  unfold _update_trailing_stop, _update_trailing_stop_body.
  rewrite Hsi, Htick, Hbuy. cbn [Py.attr Py.bind Z.eqb Mt5.POSITION_TYPE_BUY].
  apply gtb_false in Hle. apply eqb_false in Hsl. rewrite Hle, Hsl.
  reflexivity.
Qed.

End TrailingStop.

(* ================================================================== *)
(** ** The position sizer *)

Section PositionSizer.

Import RiskManager.

(** *** On a console that prints *)

Lemma logger_printing (msg : Utils.LogMessage) :
  Utils.logger Utils.printing msg = Py.Ok tt.
Proof. reflexivity. Qed.

Lemma calculate_risk_based_lot_eq (mt5 : Mt5.Terminal) (config : Config.t)
    (risk_amount : Q) (symbol : string) (symbol_info : Mt5.SymbolInfo)
    (signal : Signal) :
  _calculate_risk_based_lot mt5 config risk_amount symbol symbol_info signal
  = Py.try_except
      (_calculate_risk_based_lot_body mt5 config risk_amount symbol
         symbol_info signal)
      (fun _ => Py.Ok 0.01).
Proof.
  unfold _calculate_risk_based_lot, _calculate_risk_based_lot_logged.
  destruct (_calculate_risk_based_lot_body _ _ _ _ _ _); reflexivity.
Qed.

Lemma apply_lot_limits_eq (lot_size : Q) (symbol_info : Mt5.SymbolInfo)
    (account_info : Mt5.AccountInfo) :
  _apply_lot_limits lot_size symbol_info account_info
  = Py.try_except (_apply_lot_limits_body lot_size symbol_info account_info)
      (fun _ => Py.Ok 0.01).
Proof.
  unfold _apply_lot_limits, _apply_lot_limits_logged.
  destruct (_apply_lot_limits_body _ _ _); reflexivity.
Qed.

(** *** Fail-soft behaviour *)

Lemma calculate_risk_based_lot_returns (mt5 : Mt5.Terminal)
    (config : Config.t) (risk_amount : Q) (symbol : string)
    (symbol_info : Mt5.SymbolInfo) (signal : Signal) :
  exists lot,
    _calculate_risk_based_lot mt5 config risk_amount symbol symbol_info signal
    = Py.Ok lot.
Proof. rewrite calculate_risk_based_lot_eq. apply try_except_returns. Qed.

Lemma apply_lot_limits_returns (lot_size : Q) (symbol_info : Mt5.SymbolInfo)
    (account_info : Mt5.AccountInfo) :
  exists lot, _apply_lot_limits lot_size symbol_info account_info = Py.Ok lot.
Proof. rewrite apply_lot_limits_eq. apply try_except_returns. Qed.

(** A zero volume step makes the division of the rounding stage raise; the
    handler answers 0.01. *)
Lemma apply_lot_limits_zero_step (lot_size : Q) (symbol_info : Mt5.SymbolInfo)
    (account_info : Mt5.AccountInfo) :
  Mt5.volume_step symbol_info == 0 ->
  _apply_lot_limits lot_size symbol_info account_info = Py.Ok 0.01.
Proof.
  intro H. rewrite apply_lot_limits_eq.
  unfold _apply_lot_limits_body, Py.div.
  apply eqb_spec in H. rewrite H. reflexivity.
Qed.

(** Where [logger] does not raise, the functions of the sizer do what
    they do on a console that prints. *)
Lemma calculate_risk_based_lot_logged_quiet (console : Utils.Console)
    (mt5 : Mt5.Terminal) (config : Config.t) (risk_amount : Q)
    (symbol : string) (symbol_info : Mt5.SymbolInfo) (signal : Signal) :
  (forall msg, Utils.logger console msg = Py.Ok tt) ->
  _calculate_risk_based_lot_logged console mt5 config risk_amount symbol
    symbol_info signal
  = _calculate_risk_based_lot mt5 config risk_amount symbol symbol_info signal.
Proof.
  intro Hquiet. rewrite calculate_risk_based_lot_eq.
  unfold _calculate_risk_based_lot_logged.
  destruct (_calculate_risk_based_lot_body _ _ _ _ _ _) as [lot|e];
    cbn [Py.try_except]; [reflexivity|].
  rewrite Hquiet. reflexivity.
Qed.

Lemma apply_lot_limits_logged_quiet (console : Utils.Console) (lot_size : Q)
    (symbol_info : Mt5.SymbolInfo) (account_info : Mt5.AccountInfo) :
  (forall msg, Utils.logger console msg = Py.Ok tt) ->
  _apply_lot_limits_logged console lot_size symbol_info account_info
  = _apply_lot_limits lot_size symbol_info account_info.
Proof.
  intro Hquiet. rewrite apply_lot_limits_eq.
  unfold _apply_lot_limits_logged.
  destruct (_apply_lot_limits_body _ _ _) as [lot|e];
    cbn [Py.try_except]; [reflexivity|].
  rewrite Hquiet. reflexivity.
Qed.

Lemma calculate_lot_size_logged_quiet (console : Utils.Console)
    (mt5 : Mt5.Terminal) (config : Config.t) (symbol : string)
    (signal : Signal) :
  (forall msg, Utils.logger console msg = Py.Ok tt) ->
  calculate_lot_size_logged console mt5 config symbol signal
  = calculate_lot_size mt5 config symbol signal.
Proof.
  intro Hquiet.
  unfold calculate_lot_size, calculate_lot_size_logged,
    calculate_lot_size_body.
  destruct (Mt5.account_info mt5) as [a|].
  2: { rewrite Hquiet. reflexivity. }
  destruct (Mt5.symbol_info mt5 symbol) as [si|].
  2: { rewrite Hquiet. reflexivity. }
  cbv zeta.
  rewrite calculate_risk_based_lot_logged_quiet by exact Hquiet.
  fold (_calculate_risk_based_lot mt5 config
          (Mt5.balance a
           * (Config.get (Config.risk_percent config) 1.0 / 100))
          symbol si signal).
  destruct (if Config.get (Config.auto_lot config) true
            then _ else _) as [raw|e]; cbn [Py.bind Py.try_except].
  - rewrite apply_lot_limits_logged_quiet by exact Hquiet.
    fold (_apply_lot_limits raw si a).
    destruct (_apply_lot_limits raw si a) as [lot|e]; cbn [Py.bind Py.try_except].
    + rewrite Hquiet. reflexivity.
    + rewrite Hquiet. reflexivity.
  - rewrite Hquiet. reflexivity.
Qed.

(** The handler of [calculate_lot_size] is the only way out for an
    exception, and it raises only what its call to [logger] raises. *)
Lemma calculate_lot_size_logged_raises (console : Utils.Console)
    (mt5 : Mt5.Terminal) (config : Config.t) (symbol : string)
    (signal : Signal) (e : Py.exn) :
  calculate_lot_size_logged console mt5 config symbol signal = Py.Raise e ->
  exists e0,
    calculate_lot_size_body console mt5 config symbol signal = Py.Raise e0
    /\ Utils.logger console (Utils.ErrorCalculatingLotSize e0) = Py.Raise e.
Proof.
  unfold calculate_lot_size_logged.
  destruct (calculate_lot_size_body console mt5 config symbol signal)
    as [lot|e0]; cbn [Py.try_except]; [discriminate|].
  intro H. exists e0. split; [reflexivity|].
  destruct (Utils.logger console (Utils.ErrorCalculatingLotSize e0));
    cbn [Py.bind] in H; [discriminate | congruence].
Qed.

(** C5 (as stated, refuted): on a console that cannot encode the symbol
    which opens the sizer's messages, and with no account snapshot, the
    [logger] call of the missing-data branch raises inside the [try], the
    handler calls [logger] again, and that exception leaves
    [calculate_lot_size].  On a console that prints, the lot returned for
    missing data is the literal 0.01, below both the lot size configured
    and the minimum volume of the instrument. *)
Lemma calculate_lot_size_raises_counterexample :
  let si := Scenario.instrument 0.1 100 0.1 in
  let mt5 := Scenario.quoting_terminal None si 1950 1950.5 in
  let config := Scenario.manual_lot 0.5 in
  calculate_lot_size_logged Scenario.ascii_console mt5 config "XAUUSD"
    (Scenario.signal "buy") = Py.Raise Py.UnicodeEncodeError
  /\ calculate_lot_size_logged Utils.printing mt5 config "XAUUSD"
       (Scenario.signal "buy") = Py.Ok 0.01
  /\ 0.01 < Mt5.volume_min si
  /\ 0.01 < Config.get (Config.lot_size config) 0.01.
Proof. repeat split. Qed.

(** C5 (amended): an exception leaves [calculate_lot_size] only when a
    call to [logger] raises it; where [logger] does not raise,
    [calculate_lot_size] returns a lot on every input, and that lot is the
    literal 0.01 when the terminal has no account snapshot or does not know
    the symbol. *)
Theorem calculate_lot_size_fails_soft (console : Utils.Console)
    (mt5 : Mt5.Terminal) (config : Config.t) (symbol : string)
    (signal : Signal) :
  (forall e,
     calculate_lot_size_logged console mt5 config symbol signal = Py.Raise e ->
     exists msg, Utils.logger console msg = Py.Raise e)
  /\ ((forall msg, Utils.logger console msg = Py.Ok tt) ->
      (exists lot,
         calculate_lot_size_logged console mt5 config symbol signal
         = Py.Ok lot)
      /\ (Mt5.account_info mt5 = None \/ Mt5.symbol_info mt5 symbol = None ->
          calculate_lot_size_logged console mt5 config symbol signal
          = Py.Ok 0.01)).
Proof.
  split.
  - intros e H.
    destruct (calculate_lot_size_logged_raises console mt5 config symbol
                signal e H) as (e0 & _ & Hlog).
    exists (Utils.ErrorCalculatingLotSize e0). exact Hlog.
  - intro Hquiet. split.
    + unfold calculate_lot_size_logged.
      destruct (calculate_lot_size_body console mt5 config symbol signal)
        as [lot|e0]; cbn [Py.try_except].
      * exists lot. reflexivity.
      * exists 0.01. rewrite Hquiet. reflexivity.
    + unfold calculate_lot_size_logged, calculate_lot_size_body.
      intros [H | H]; rewrite H.
      * rewrite Hquiet. reflexivity.
      * destruct (Mt5.account_info mt5); rewrite Hquiet; reflexivity.
Qed.

Lemma calculate_lot_size_fails_soft_witness :
  calculate_lot_size_logged Utils.printing (Scenario.idle_terminal None)
    Config.empty "XAUUSD" (Scenario.signal "buy") = Py.Ok 0.01
  /\ calculate_lot_size_logged Utils.printing
       (Scenario.idle_terminal (Some (Scenario.flat_account 10000 10000)))
       Config.empty "XAUUSD" (Scenario.signal "buy") = Py.Ok 0.01.
Proof.
  split.
  - apply (proj2 (proj2 (calculate_lot_size_fails_soft Utils.printing
                           (Scenario.idle_terminal None)
                           Config.empty "XAUUSD" (Scenario.signal "buy"))
                    (fun msg => eq_refl))).
    left. reflexivity.
  - apply (proj2 (proj2 (calculate_lot_size_fails_soft Utils.printing
                           (Scenario.idle_terminal
                              (Some (Scenario.flat_account 10000 10000)))
                           Config.empty "XAUUSD" (Scenario.signal "buy"))
                    (fun msg => eq_refl))).
    right. reflexivity.
Defined.

(** *** Volume limits *)

Section OnStepGrid.

(** An instrument whose step is a whole number of hundredths and whose
    minimum and maximum are whole numbers of steps. *)
Variable si : Mt5.SymbolInfo.
Variables kmin kmax kstep : Z.
Hypothesis step_positive : (0 < kstep)%Z.
Hypothesis min_le_max : (kmin <= kmax)%Z.
Hypothesis step_on_cents : Mt5.volume_step si == inject_Z kstep * 0.01.
Hypothesis min_on_grid : Mt5.volume_min si == inject_Z kmin * Mt5.volume_step si.
Hypothesis max_on_grid : Mt5.volume_max si == inject_Z kmax * Mt5.volume_step si.

Lemma volume_step_positive : 0 < Mt5.volume_step si.
Proof.
  rewrite step_on_cents. pose proof step_positive as Hk.
  rewrite Zlt_Qlt in Hk. change (inject_Z 0) with 0 in Hk. lra.
Qed.

(** The rounding stage stays at or below the maximum. *)
Lemma steps_le_max (lot_size : Q) :
  lot_size <= Mt5.volume_max si ->
  (Py.round (lot_size / Mt5.volume_step si) <= kmax)%Z.
Proof.
  intro H. apply round_le_int.
  apply Qle_shift_div_r; [exact volume_step_positive|].
  rewrite <- max_on_grid. exact H.
Qed.

(** After the floor is re-applied the lot is a whole number of steps
    between the minimum and the maximum. *)
Lemma floor_after_rounding (r : Z) :
  (r <= kmax)%Z ->
  exists k : Z,
    (kmin <= k <= kmax)%Z
    /\ Py.max (inject_Z r * Mt5.volume_step si) (Mt5.volume_min si)
       == inject_Z k * Mt5.volume_step si.
Proof.
  intro Hr. unfold Py.max.
  destruct (Py.gtb (Mt5.volume_min si) (inject_Z r * Mt5.volume_step si)) eqn:E.
  - exists kmin. split; [lia | exact min_on_grid].
  - exists r. split; [|reflexivity].
    split; [|exact Hr].
    apply gtb_false in E. rewrite min_on_grid in E.
    apply (on_grid_le _ _ _ volume_step_positive E).
Qed.

(** The lot-limit stage returns a whole number of steps between the
    minimum and the maximum. *)
Lemma apply_lot_limits_within (lot_size : Q) (a : Mt5.AccountInfo) :
  exists lot (k : Z),
    _apply_lot_limits lot_size si a = Py.Ok lot
    /\ (kmin <= k <= kmax)%Z
    /\ lot == inject_Z k * Mt5.volume_step si.
Proof.
  pose proof volume_step_positive as Hpos.
  rewrite apply_lot_limits_eq. unfold _apply_lot_limits_body, Py.div.
  assert (Hnz : Py.eqb (Mt5.volume_step si) 0 = false) by (apply eqb_false; lra).
  rewrite Hnz. cbn [Py.bind Py.try_except].
  set (l3 := Py.min _ (Mt5.volume_max si)).
  destruct (floor_after_rounding (Py.round (l3 / Mt5.volume_step si)))
    as (k & Hkb & Hl5).
  { apply steps_le_max. apply min_lb_r. }
  eexists. exists k. split; [reflexivity|]. split; [exact Hkb|].
  rewrite (round_nd_2_on_grid _ (k * kstep)).
  - exact Hl5.
  - rewrite Hl5, step_on_cents, inject_Z_mult. field.
Qed.

End OnStepGrid.

(** With account and symbol data at hand, [calculate_lot_size] is the
    lot-limit stage applied to some raw lot. *)
Lemma calculate_lot_size_is_limited (mt5 : Mt5.Terminal) (config : Config.t)
    (symbol : string) (signal : Signal) (a : Mt5.AccountInfo)
    (si : Mt5.SymbolInfo) :
  Mt5.account_info mt5 = Some a ->
  Mt5.symbol_info mt5 symbol = Some si ->
  exists raw,
    calculate_lot_size mt5 config symbol signal = _apply_lot_limits raw si a.
Proof.
  intros Ha Hsi.
  unfold calculate_lot_size, calculate_lot_size_logged,
    calculate_lot_size_body.
  rewrite Ha, Hsi.
  fold (_calculate_risk_based_lot mt5 config
          (Mt5.balance a
           * (Config.get (Config.risk_percent config) 1.0 / 100))
          symbol si signal).
  destruct (Config.get (Config.auto_lot config) true).
  - destruct (calculate_risk_based_lot_returns mt5 config
                (Mt5.balance a
                 * (Config.get (Config.risk_percent config) 1.0 / 100))
                symbol si signal) as [raw Hraw].
    exists raw. rewrite Hraw. cbn [Py.bind].
    fold (_apply_lot_limits raw si a).
    destruct (apply_lot_limits_returns raw si a) as [lot Hlot].
    rewrite Hlot. reflexivity.
  - exists (Config.get (Config.lot_size config) 0.01). cbn [Py.bind].
    fold (_apply_lot_limits (Config.get (Config.lot_size config) 0.01) si a).
    destruct (apply_lot_limits_returns
                (Config.get (Config.lot_size config) 0.01) si a) as [lot Hlot].
    rewrite Hlot. reflexivity.
Qed.

(** Without an account snapshot the sizer answers 0.01 before it looks at
    the instrument. *)
Lemma calculate_lot_size_no_account (mt5 : Mt5.Terminal) (config : Config.t)
    (symbol : string) (signal : Signal) :
  Mt5.account_info mt5 = None ->
  calculate_lot_size mt5 config symbol signal = Py.Ok 0.01.
Proof.
  intro Ha.
  unfold calculate_lot_size, calculate_lot_size_logged,
    calculate_lot_size_body.
  rewrite Ha. reflexivity.
Qed.

(** C3 (as stated, refuted): minimum 0.01, maximum 100, step 0.1, balance
    1000, default configuration (1 percent risk, 25 pips).  The raw lot 0.04
    rounds to zero steps, the floor lifts it to the minimum, and 0.01 is not
    a multiple of 0.1. *)
Lemma lot_size_off_step_counterexample :
  let si := Scenario.instrument 0.01 100 0.1 in
  let mt5 := Scenario.quoting_terminal
               (Some (Scenario.flat_account 1000 1000)) si 1950 1950.5 in
  0 < Mt5.volume_min si /\ 0 < Mt5.volume_max si /\ 0 < Mt5.volume_step si
  /\ calculate_lot_size mt5 Config.empty "XAUUSD" (Scenario.signal "buy")
     = Py.Ok 0.01
  /\ ~ multiple_of 0.01 (Mt5.volume_step si).
Proof.
  repeat split.
  intros [k Hk]. unfold Qeq in Hk. simpl in Hk. lia.
Qed.

(** The upper limit fails the same way when it is not a whole number of
    steps: maximum 0.38, step 0.1, a large account. *)
Example lot_size_above_maximum :
  let si := Scenario.instrument 0.01 0.38 0.1 in
  let mt5 := Scenario.quoting_terminal
               (Some (Scenario.flat_account 1000000 1000000)) si 1950 1950.5 in
  exists lot,
    calculate_lot_size mt5 Config.empty "XAUUSD" (Scenario.signal "buy")
    = Py.Ok lot
    /\ lot == 0.4 /\ Mt5.volume_max si < lot.
Proof. eexists. repeat split. Qed.

(** On a step finer than a hundredth the closing [round(lot_size, 2)] can
    take the lot below the minimum that was just re-applied. *)
Example lot_size_below_minimum :
  let si := Scenario.instrument 0.001 100 0.001 in
  let mt5 := Scenario.quoting_terminal
               (Some (Scenario.flat_account 10 10)) si 1950 1950.5 in
  exists lot,
    calculate_lot_size mt5 Config.empty "XAUUSD" (Scenario.signal "buy")
    = Py.Ok lot
    /\ lot == 0 /\ lot < Mt5.volume_min si.
Proof. eexists. repeat split. Qed.

(** The sizing scenario of the gold instrument: balance 10000, 1 percent
    risk, 25 pips, pip value 10, limits 0.01 / 100 / 0.01. *)
Example lot_size_gold_scenario :
  let mt5 := Scenario.quoting_terminal
               (Some (Scenario.flat_account 10000 10000)) Scenario.xauusd
               1950 1950.5 in
  exists lot,
    calculate_lot_size mt5 Config.empty "XAUUSD" (Scenario.signal "buy")
    = Py.Ok lot
    /\ lot == 0.4.
Proof. eexists. repeat split. Qed.

(** C3 (amended): on an instrument whose volume step is a positive whole
    number of hundredths and whose minimum and maximum volume are whole
    numbers of steps with [0 < min <= max], and with account and symbol data
    at hand, [calculate_lot_size] returns, for every configuration (any risk
    percent, any stop-loss distance) and every signal, a lot within
    [[volume_min, volume_max]] that is a whole multiple of [volume_step]. *)
Theorem lot_size_within_limits (mt5 : Mt5.Terminal) (config : Config.t)
    (symbol : string) (signal : Signal) (a : Mt5.AccountInfo)
    (si : Mt5.SymbolInfo) (kmin kmax kstep : Z) :
  Mt5.account_info mt5 = Some a ->
  Mt5.symbol_info mt5 symbol = Some si ->
  (0 < kstep)%Z ->
  (0 < kmin <= kmax)%Z ->
  Mt5.volume_step si == inject_Z kstep * 0.01 ->
  Mt5.volume_min si == inject_Z kmin * Mt5.volume_step si ->
  Mt5.volume_max si == inject_Z kmax * Mt5.volume_step si ->
  exists lot,
    calculate_lot_size mt5 config symbol signal = Py.Ok lot
    /\ Mt5.volume_min si <= lot
    /\ lot <= Mt5.volume_max si
    /\ multiple_of lot (Mt5.volume_step si).
Proof.
  intros Ha Hsi Hk Hkk Hstep Hmin Hmax.
  destruct (calculate_lot_size_is_limited mt5 config symbol signal a si Ha Hsi)
    as [raw Hraw].
  assert (Hle : (kmin <= kmax)%Z) by lia.
  destruct (apply_lot_limits_within si kmin kmax kstep Hk Hle Hstep Hmin Hmax
              raw a) as (lot & k & Hlot & Hkb & Hgrid).
  pose proof (volume_step_positive si kstep Hk Hstep) as Hpos.
  exists lot. rewrite Hraw. split; [exact Hlot|].
  split; [|split].
  - rewrite Hmin, Hgrid. apply on_grid_mono; [exact Hpos | lia].
  - rewrite Hmax, Hgrid. apply on_grid_mono; [exact Hpos | lia].
  - exists k. exact Hgrid.
Qed.

Lemma lot_size_within_limits_witness :
  let mt5 := Scenario.quoting_terminal
               (Some (Scenario.flat_account 10000 10000)) Scenario.xauusd
               1950 1950.5 in
  exists lot,
    calculate_lot_size mt5 Config.empty "XAUUSD" (Scenario.signal "buy")
    = Py.Ok lot
    /\ Mt5.volume_min Scenario.xauusd <= lot
    /\ lot <= Mt5.volume_max Scenario.xauusd
    /\ multiple_of lot (Mt5.volume_step Scenario.xauusd).
Proof.
  apply (lot_size_within_limits
           (Scenario.quoting_terminal
              (Some (Scenario.flat_account 10000 10000)) Scenario.xauusd
              1950 1950.5)
           Config.empty "XAUUSD" (Scenario.signal "buy")
           (Scenario.flat_account 10000 10000) Scenario.xauusd
           1%Z 10000%Z 1%Z);
    [reflexivity | reflexivity | lia | lia
    | reflexivity | reflexivity | reflexivity].
Defined.

End PositionSizer.

(* ================================================================== *)
(** * Further properties of the modelled code *)

(** ** [utils.py]: calendar filters *)

Section CalendarFilters.

Import Utils.

(** X1: [is_high_impact_news_time] answers true exactly in the minutes
    08:30-09:30, 12:30-14:30 and 16:00-16:30 UTC (bounds included), and on
    Friday also up to 15:00; the Wednesday window 13:00-14:00 lies inside
    the daily one and never changes the answer. *)
Theorem news_windows (current_hour current_minute day_of_week : Z) :
  let t := (current_hour * 60 + current_minute)%Z in
  is_high_impact_news_time current_hour current_minute day_of_week = true
  <-> (510 <= t <= 570)%Z \/ (750 <= t <= 870)%Z \/ (960 <= t <= 990)%Z
      \/ (day_of_week = 4%Z /\ (750 <= t <= 900)%Z).
Proof.
  intro t. unfold is_high_impact_news_time. fold t.
  destruct (Z.eqb_spec day_of_week 2); destruct (Z.eqb_spec day_of_week 4);
    cbn [app existsb];
    rewrite ?orb_true_iff, ?andb_true_iff, ?Z.leb_le;
    cbn; intuition (try discriminate; lia).
Qed.

(** X2: [get_market_session] splits the hours into Asia (from 21 and
    before 6), London (7 to 14) and New York (15 to 20); the only hour it
    calls closed is 6. *)
Theorem market_session_partition (hour : Z) :
  (get_market_session hour = "Asia"%string <-> (21 <= hour \/ hour < 6)%Z)
  /\ (get_market_session hour = "London"%string <-> (7 <= hour < 15)%Z)
  /\ (get_market_session hour = "New_York"%string <-> (15 <= hour < 21)%Z)
  /\ (get_market_session hour = "Closed"%string <-> hour = 6%Z).
Proof.
  unfold get_market_session.
  destruct (Z.leb_spec 21 hour); destruct (Z.ltb_spec hour 6);
    destruct (Z.leb_spec 7 hour); destruct (Z.ltb_spec hour 15);
    destruct (Z.leb_spec 15 hour); destruct (Z.ltb_spec hour 21);
    cbn [orb andb];
    repeat match goal with
           | |- _ /\ _ => split
           | |- _ <-> _ => split
           end;
    intro; try discriminate; try lia; try reflexivity.
Qed.

(** X3: with Python's weekday numbers (Monday 0 to Sunday 6),
    [is_market_open] answers true on Tuesday to Friday at every hour, on
    Saturday before 22:00 and on Monday from 22:00, and false otherwise. *)
Theorem market_open_days (day_of_week hour : Z) :
  (0 <= day_of_week <= 6)%Z ->
  is_market_open day_of_week hour = true
  <-> (1 <= day_of_week <= 4)%Z
      \/ (day_of_week = 5 /\ hour < 22)%Z
      \/ (day_of_week = 0 /\ 22 <= hour)%Z.
Proof.
  intro Hd. unfold is_market_open. rewrite Z.geb_leb.
  destruct (Z.eqb_spec day_of_week 5); destruct (Z.leb_spec 22 hour);
    destruct (Z.eqb_spec day_of_week 6); destruct (Z.eqb_spec day_of_week 0);
    destruct (Z.ltb_spec hour 22); cbn [andb];
    split; intro; try discriminate; try lia; try reflexivity.
Qed.

Lemma market_open_days_witness :
  is_market_open 4 23 = true /\ is_market_open 0 9 <> true.
Proof.
  split.
  - apply (market_open_days 4 23); lia.
  - intro H. apply (market_open_days 0 9) in H; lia.
Defined.

End CalendarFilters.

(** ** [utils.py]: rounding, sizing helper and retry wrapper *)

Section UtilsHelpers.

Import Utils.

Lemma pow10_positive (ndigits : Z) : 0 < Qpower 10 ndigits.
Proof. apply Qpower_0_lt. reflexivity. Qed.

Lemma round_nd_mono (x y : Q) (ndigits : Z) :
  x <= y -> Py.round_nd x ndigits <= Py.round_nd y ndigits.
Proof.
  intro H. unfold Py.round_nd.
  pose proof (pow10_positive ndigits) as Hp.
  apply Qle_shift_div_l; [exact Hp|].
  setoid_replace (inject_Z (Py.round (x * 10 ^ ndigits)) / 10 ^ ndigits
                  * 10 ^ ndigits)
    with (inject_Z (Py.round (x * 10 ^ ndigits))) by (field; lra).
  rewrite <- Zle_Qle. apply round_mono.
  apply Qmult_le_r; assumption.
Qed.

Lemma round_nd_idempotent (x : Q) (ndigits : Z) :
  Py.round_nd (Py.round_nd x ndigits) ndigits == Py.round_nd x ndigits.
Proof.
  pose proof (pow10_positive ndigits) as Hp.
  unfold Py.round_nd at 1.
  rewrite (round_inject _ (Py.round (x * 10 ^ ndigits))).
  - reflexivity.
  - unfold Py.round_nd. field. lra.
Qed.

Lemma round_nd_zero (ndigits : Z) : Py.round_nd 0 ndigits == 0.
Proof.
  unfold Py.round_nd. rewrite (round_inject _ 0%Z).
  - pose proof (pow10_positive ndigits). field. lra.
  - ring.
Qed.

(** X4: [round_to_symbol_digits] is monotone in the value and rounding its
    own result again changes nothing, for a known symbol (its digits) as for
    an unknown one (five digits). *)
Theorem round_to_symbol_digits_stable (mt5 : Mt5.Terminal) (x y : Q)
    (symbol : string) :
  (x <= y ->
   round_to_symbol_digits mt5 x symbol <= round_to_symbol_digits mt5 y symbol)
  /\ round_to_symbol_digits mt5 (round_to_symbol_digits mt5 x symbol) symbol
     == round_to_symbol_digits mt5 x symbol.
Proof.
  unfold round_to_symbol_digits.
  destruct (Mt5.symbol_info mt5 symbol); split;
    first [ apply round_nd_mono | apply round_nd_idempotent ].
Qed.

Lemma round_to_symbol_digits_stable_witness :
  round_to_symbol_digits (Scenario.idle_terminal None) 1.234564 "XAUUSD"
  <= round_to_symbol_digits (Scenario.idle_terminal None) 1.234566 "XAUUSD".
Proof.
  apply (proj1 (round_to_symbol_digits_stable (Scenario.idle_terminal None)
                  1.234564 1.234566 "XAUUSD")).
  vm_compute. discriminate.
Defined.

(** X5: [calculate_lot_from_risk] never returns less than 0.01 and always
    returns a whole number of hundredths, whatever the balance, the risk
    percent, the stop distance and the pip value. *)
Theorem lot_from_risk_floor (balance risk_percent stop_loss_pips pip_value : Q) :
  let lot := calculate_lot_from_risk balance risk_percent stop_loss_pips
               pip_value in
  0.01 <= lot /\ exists n : Z, lot == inject_Z n * 0.01.
Proof.
  unfold calculate_lot_from_risk.
  destruct (Py.leb pip_value 0 || Py.leb stop_loss_pips 0).
  - split; [lra|]. exists 1%Z. reflexivity.
  - cbv zeta. split; [apply max_ub_l|].
    destruct (max_cases 0.01 (Py.round_nd
                (balance * (risk_percent / 100) / (stop_loss_pips * pip_value)) 2))
      as [E | E]; rewrite E.
    + exists 1%Z. reflexivity.
    + unfold Py.round_nd. change (Qpower 10 2) with 100.
      match goal with
      | |- exists n, inject_Z ?r / _ == _ => exists r
      end.
      field.
Qed.

Lemma retry_loop_success {A : Type} (func : nat -> Py.result A) (n k : nat)
    (v : A) :
  (k < n)%nat ->
  (forall j, (j < k)%nat -> exists e, func j = Py.Raise e) ->
  func k = Py.Ok v ->
  forall remaining attempt,
    (attempt + remaining = n)%nat -> (attempt <= k)%nat ->
    retry_loop func (Z.of_nat n) attempt remaining = Py.Ok (Some v).
Proof.
  intros Hk Hfail Hok. induction remaining as [|r IH]; intros attempt Hsum Hle.
  - lia.
  - cbn [retry_loop].
    destruct (Nat.eq_dec attempt k) as [-> | Hne].
    + rewrite Hok. reflexivity.
    + destruct (Hfail attempt) as [e He]; [lia|]. rewrite He.
      destruct (Z.eqb_spec (Z.of_nat attempt) (Z.of_nat n - 1)); [lia|].
      apply IH; lia.
Qed.

Lemma retry_loop_exhausted {A : Type} (func : nat -> Py.result A) (n : nat)
    (e : Py.exn) :
  (forall j, (j < n)%nat -> exists e', func j = Py.Raise e') ->
  func (n - 1)%nat = Py.Raise e ->
  forall remaining attempt,
    (attempt + remaining = n)%nat -> (0 < remaining)%nat ->
    retry_loop func (Z.of_nat n) attempt remaining = Py.Raise e.
Proof.
  intros Hfail Hlast. induction remaining as [|r IH]; intros attempt Hsum Hpos.
  - lia.
  - cbn [retry_loop].
    destruct (Hfail attempt) as [e' He']; [lia|]. rewrite He'.
    destruct (Z.eqb_spec (Z.of_nat attempt) (Z.of_nat n - 1)) as [E | E].
    + assert (attempt = (n - 1)%nat) by lia. subst attempt.
      rewrite Hlast in He'. congruence.
    + apply IH; lia.
Qed.

(** With no attempt allowed the wrapper returns [None] without calling
    [func]. *)
Lemma retry_without_attempts {A : Type} (func : nat -> Py.result A)
    (max_retries : Z) :
  (max_retries <= 0)%Z ->
  retry_on_failure func max_retries = Py.Ok None.
Proof.
  intro H. unfold retry_on_failure.
  replace (Z.to_nat max_retries) with 0%nat by lia. reflexivity.
Qed.

(** X6: when the call at attempt [k] (counted from 0, below
    [max_retries]) is the first that does not raise, the wrapper of
    [retry_on_failure] returns its value. *)
Theorem retry_returns_first_success {A : Type} (func : nat -> Py.result A)
    (max_retries : Z) (k : nat) (v : A) :
  (Z.of_nat k < max_retries)%Z ->
  (forall j, (j < k)%nat -> exists e, func j = Py.Raise e) ->
  func k = Py.Ok v ->
  retry_on_failure func max_retries = Py.Ok (Some v).
Proof.
  intros Hk Hfail Hok. unfold retry_on_failure.
  rewrite <- (Z2Nat.id max_retries) at 1 by lia.
  apply (retry_loop_success func (Z.to_nat max_retries) k v); try assumption; lia.
Qed.

Lemma retry_returns_first_success_witness :
  retry_on_failure
    (fun attempt =>
       if (attempt <? 2)%nat then Py.Raise Py.ZeroDivisionError else Py.Ok 7%Z)
    3 = Py.Ok (Some 7%Z).
Proof.
  apply (retry_returns_first_success _ 3 2 7%Z).
  - lia.
  - intros j Hj. exists Py.ZeroDivisionError.
    destruct j as [|[|j]]; [reflexivity | reflexivity | lia].
  - reflexivity.
Defined.

(** X7: when all [max_retries] calls raise, the wrapper raises the
    exception of the last call. *)
Theorem retry_raises_last_failure {A : Type} (func : nat -> Py.result A)
    (max_retries : Z) (e : Py.exn) :
  (0 < max_retries)%Z ->
  (forall j, (Z.of_nat j < max_retries)%Z -> exists e', func j = Py.Raise e') ->
  func (Z.to_nat (max_retries - 1)) = Py.Raise e ->
  retry_on_failure func max_retries = Py.Raise e.
Proof.
  intros Hpos Hfail Hlast. unfold retry_on_failure.
  rewrite <- (Z2Nat.id max_retries) at 1 by lia.
  apply (retry_loop_exhausted func (Z.to_nat max_retries) e); try lia.
  - intros j Hj. apply Hfail. lia.
  - replace (Z.to_nat max_retries - 1)%nat with (Z.to_nat (max_retries - 1)) by lia.
    exact Hlast.
Qed.

Lemma retry_raises_last_failure_witness :
  retry_on_failure
    (fun attempt =>
       if (attempt <? 2)%nat
       then @Py.Raise Z Py.ZeroDivisionError else Py.Raise Py.AttributeError)
    3 = Py.Raise Py.AttributeError.
Proof.
  apply (retry_raises_last_failure _ 3 Py.AttributeError).
  - lia.
  - intros j _. destruct (j <? 2)%nat; eauto.
  - reflexivity.
Defined.

End UtilsHelpers.

(** ** [risk_management.py]: emergency stop and adaptive risk *)

Section AdaptiveRisk.

Import RiskManager.

Lemma div_gt_iff (x y c : Q) : 0 < y -> (c < x / y <-> c * y < x).
Proof.
  intro Hy. split; intro H.
  - apply (Qmult_lt_r _ _ y Hy) in H.
    setoid_replace (x / y * y) with x in H by (field; lra). exact H.
  - apply Qlt_shift_div_l; assumption.
Qed.

Lemma min_mono_l (a b c : Q) : a <= b -> Py.min a c <= Py.min b c.
Proof.
  intro H. unfold Py.min.
  destruct (Py.ltb c a) eqn:E1; destruct (Py.ltb c b) eqn:E2;
    try apply ltb_spec in E1; try apply ltb_false in E1;
    try apply ltb_spec in E2; try apply ltb_false in E2; lra.
Qed.

(** X8: [_check_emergency_conditions] calls [emergency_stop] exactly when
    the account is readable, the start balance is positive and the balance
    is below [start_balance * (1 - 100 * threshold)]; with the default
    threshold 20 that is a balance below minus 1999 start balances. *)
Theorem emergency_stop_condition (mt5 : Mt5.Terminal) (config : Config.more)
    (st : DailyStats) :
  _check_emergency_conditions mt5 config st = true
  <-> exists a,
        Mt5.account_info mt5 = Some a
        /\ 0 < start_balance st
        /\ Mt5.balance a
           < start_balance st
             * (1 - 100 * Config.get (Config.emergency_stop_threshold config) 20).
Proof.
  unfold _check_emergency_conditions.
  set (thr := Config.get (Config.emergency_stop_threshold config) 20).
  destruct (Mt5.account_info mt5) as [a|].
  - destruct (Py.gtb (start_balance st) 0) eqn:Hs.
    + apply gtb_spec in Hs.
      unfold Utils.safe_divide.
      assert (Hnz : Py.eqb (start_balance st * 100) 0 = false)
        by (apply eqb_false; lra).
      rewrite Hnz.
      destruct (Py.gtb _ thr) eqn:E.
      * apply gtb_spec in E. apply div_gt_iff in E; [|lra].
        split; [intros _|reflexivity].
        exists a. repeat split; [exact Hs | lra].
      * apply gtb_false in E. split; [discriminate|].
        intros (a' & Ha & _ & Hlt). injection Ha as <-.
        exfalso.
        assert (Hgt : thr < (start_balance st - Mt5.balance a)
                            / (start_balance st * 100)).
        { apply div_gt_iff; lra. }
        lra.
    + apply gtb_false in Hs. split; [discriminate|].
      intros (a' & _ & Hpos & _). lra.
  - split; [discriminate|]. intros (a' & Ha & _). discriminate Ha.
Qed.

(** The risk percent that [adjust_risk_after_loss] writes. *)
Lemma adjust_risk_value (config : Config.t) (st : DailyStats) :
  (2 <= consecutive_losses st)%Z ->
  risk_percent_of (adjust_risk_after_loss config st)
  = Py.max (risk_percent_of config * 0.8) 0.2.
Proof.
  intro Hs. unfold adjust_risk_after_loss, risk_percent_of.
  destruct (Z.geb_spec (consecutive_losses st) 2); [|lia].
  reflexivity.
Qed.

(** X9: after two or more consecutive losses [adjust_risk_after_loss]
    sets the risk percent to the larger of 0.8 times its value and 0.2; the
    new value is at least 0.2, and it is at most the old one exactly when
    the old one was at least 0.2 (a smaller configured risk is raised to
    0.2). *)
Theorem adjust_risk_floor (config : Config.t) (st : DailyStats) :
  (2 <= consecutive_losses st)%Z ->
  let r := risk_percent_of config in
  let r' := risk_percent_of (adjust_risk_after_loss config st) in
  0.2 <= r'
  /\ (r' = r * 0.8 \/ r' = 0.2)
  /\ r * 0.8 <= r'
  /\ (r' <= r <-> 0.2 <= r).
Proof.
  intros Hs r r'. subst r'. rewrite (adjust_risk_value config st Hs). fold r.
  pose proof (max_ub_l (r * 0.8) 0.2). pose proof (max_ub_r (r * 0.8) 0.2).
  destruct (max_cases (r * 0.8) 0.2) as [E | E]; rewrite E in *;
    repeat split; auto; try lra.
Qed.

Lemma adjust_risk_floor_witness :
  let config := Config.update_config_risk_percent Config.empty 0.1 in
  let st := {| start_balance := 10000;
               current_profit := 0;
               trades_today := 2;
               winning_trades := 0;
               losing_trades := 2;
               consecutive_losses := 2;
               max_drawdown_today := 0;
               last_reset := 1 |} in
  0.2 <= risk_percent_of (adjust_risk_after_loss config st).
Proof.
  intros config st.
  apply (proj1 (adjust_risk_floor config st ltac:(cbn; lia))).
Defined.

(** Below two consecutive losses the configuration is left alone. *)
Lemma adjust_risk_below_streak (config : Config.t) (st : DailyStats) :
  (consecutive_losses st < 2)%Z -> adjust_risk_after_loss config st = config.
Proof.
  intro H. unfold adjust_risk_after_loss.
  destruct (Z.geb_spec (consecutive_losses st) 2); [lia | reflexivity].
Qed.

Lemma restore_at_or_above_normal (config : Config.t) :
  1 <= risk_percent_of config -> restore_normal_risk config = config.
Proof.
  intro H. unfold restore_normal_risk, Config.get_setting.
  unfold risk_percent_of, Config.get in H.
  assert (E : Py.ltb (Py.get (Config.risk_percent config) 1.0) 1.0 = false)
    by (apply ltb_false; lra).
  rewrite E. reflexivity.
Qed.

Lemma restore_below_normal (config : Config.t) :
  risk_percent_of config < 1 ->
  risk_percent_of (restore_normal_risk config)
  = Py.min (risk_percent_of config * 1.1) 1.0.
Proof.
  intro H. unfold restore_normal_risk, Config.get_setting.
  unfold risk_percent_of, Config.get in *.
  assert (E : Py.ltb (Py.get (Config.risk_percent config) 1.0) 1.0 = true)
    by (apply ltb_spec; lra).
  rewrite E. reflexivity.
Qed.

(** X10: [restore_normal_risk] leaves a risk percent of 1.0 or more as it
    is; below 1.0 the new value is at most 1.0, at most 1.1 times the old
    one, and not below a non-negative old one. *)
Theorem restore_risk_bounds (config : Config.t) :
  let r := risk_percent_of config in
  let r' := risk_percent_of (restore_normal_risk config) in
  (1 <= r -> restore_normal_risk config = config)
  /\ (r < 1 -> r' <= 1 /\ r' <= r * 1.1 /\ (0 <= r -> r <= r')).
Proof.
  intros r r'. subst r r'. split.
  - apply restore_at_or_above_normal.
  - intro H. rewrite (restore_below_normal config H).
    set (r := risk_percent_of config) in *.
    pose proof (min_lb_l (r * 1.1) 1.0). pose proof (min_lb_r (r * 1.1) 1.0).
    repeat split; try lra.
    intro Hr. unfold Py.min. destruct (Py.ltb 1.0 (r * 1.1)); lra.
Qed.

Lemma restore_risk_bounds_witness :
  let config := Config.update_config_risk_percent Config.empty 0.8 in
  risk_percent_of (restore_normal_risk config) <= 1
  /\ restore_normal_risk (Config.update_config_risk_percent Config.empty 2)
     = Config.update_config_risk_percent Config.empty 2.
Proof.
  intro config. split.
  - destruct (proj2 (restore_risk_bounds config)) as (H & _);
      [vm_compute; reflexivity | exact H].
  - apply (proj1 (restore_risk_bounds
                    (Config.update_config_risk_percent Config.empty 2))).
    vm_compute. discriminate.
Defined.

Lemma restore_times_fixed (n : nat) (config : Config.t) :
  1 <= risk_percent_of config -> restore_normal_risk_times n config = config.
Proof.
  intro H. induction n as [|n IH]; [reflexivity|].
  cbn [restore_normal_risk_times].
  rewrite (restore_at_or_above_normal config H). exact IH.
Qed.

(** X11: a risk percent of 1.25 or more that [adjust_risk_after_loss] has
    cut to 0.8 times its value is never raised again by
    [restore_normal_risk], however often it is called. *)
Theorem reduction_above_normal_is_permanent (config : Config.t)
    (st : DailyStats) (n : nat) :
  (2 <= consecutive_losses st)%Z ->
  1.25 <= risk_percent_of config ->
  risk_percent_of
    (restore_normal_risk_times n (adjust_risk_after_loss config st))
  = risk_percent_of config * 0.8.
Proof.
  intros Hs Hr.
  pose proof (adjust_risk_value config st Hs) as Hv.
  pose proof (max_ub_l (risk_percent_of config * 0.8) 0.2) as Hge.
  rewrite restore_times_fixed by (rewrite Hv; lra).
  rewrite Hv.
  destruct (max_cases (risk_percent_of config * 0.8) 0.2) as [E | E];
    [exact E|].
  exfalso. rewrite E in Hge. lra.
Qed.

Lemma reduction_above_normal_is_permanent_witness :
  let config := Config.update_config_risk_percent Config.empty 2 in
  let st := {| start_balance := 10000;
               current_profit := 0;
               trades_today := 2;
               winning_trades := 0;
               losing_trades := 2;
               consecutive_losses := 2;
               max_drawdown_today := 0;
               last_reset := 1 |} in
  risk_percent_of (restore_normal_risk_times 5 (adjust_risk_after_loss config st))
  = 2 * 0.8.
Proof.
  intros config st.
  apply (reduction_above_normal_is_permanent config st 5).
  - cbn. lia.
  - vm_compute. discriminate.
Defined.

Lemma restore_step_bound (config : Config.t) (a : Q) :
  a <= risk_percent_of config -> risk_percent_of config <= 1 ->
  let r' := risk_percent_of (restore_normal_risk config) in
  Py.min (a * 1.1) 1.0 <= r' /\ r' <= 1.
Proof.
  intros Ha H1 r'. subst r'.
  unfold restore_normal_risk, Config.get_setting.
  unfold risk_percent_of, Config.get in *.
  set (r := Py.get (Config.risk_percent config) 1.0) in *.
  pose proof (min_lb_r (a * 1.1) 1.0) as Hm1.
  pose proof (min_lb_l (a * 1.1) 1.0) as Hm2.
  destruct (Py.ltb r 1.0) eqn:E.
  - cbn [Config.update_config_risk_percent Config.risk_percent Py.get].
    split; [apply min_mono_l; lra |].
    pose proof (min_lb_r (r * 1.1) 1.0). lra.
  - apply ltb_false in E. fold r. lra.
Qed.

Lemma restore_times_bound (n : nat) :
  forall (config : Config.t) (a : Q),
    a <= risk_percent_of config -> risk_percent_of config <= 1 ->
    let r' := risk_percent_of (restore_normal_risk_times n config) in
    Nat.iter n (fun a => Py.min (a * 1.1) 1.0) a <= r' /\ r' <= 1.
Proof.
  induction n as [|n IH]; intros config a Ha H1.
  - cbn. split; assumption.
  - cbn [restore_normal_risk_times]. rewrite Nat.iter_succ_r.
    destruct (restore_step_bound config a Ha H1) as [Hlo Hhi].
    apply IH; assumption.
Qed.

(** X12: from any risk percent between the floor 0.2 and 1.0, seventeen
    calls of [restore_normal_risk] bring it back to 1.0. *)
Theorem seventeen_restores_reach_normal (config : Config.t) :
  0.2 <= risk_percent_of config -> risk_percent_of config <= 1 ->
  risk_percent_of (restore_normal_risk_times 17 config) == 1.
Proof.
  intros Hlo Hhi.
  destruct (restore_times_bound 17 config 0.2 Hlo Hhi) as [Hb Hle].
  assert (H17 : Nat.iter 17 (fun a => Py.min (a * 1.1) 1.0) 0.2 == 1)
    by (vm_compute; reflexivity).
  lra.
Qed.

Lemma seventeen_restores_reach_normal_witness :
  risk_percent_of
    (restore_normal_risk_times 17
       (Config.update_config_risk_percent Config.empty 0.2)) == 1.
Proof.
  apply (seventeen_restores_reach_normal
           (Config.update_config_risk_percent Config.empty 0.2));
    vm_compute; discriminate.
Defined.

(** Sixteen calls are not enough from the floor. *)
Example sixteen_restores_fall_short :
  risk_percent_of
    (restore_normal_risk_times 16
       (Config.update_config_risk_percent Config.empty 0.2)) < 1.
Proof. vm_compute. reflexivity. Qed.

End AdaptiveRisk.

(** ** [risk_management.py]: the day's counters over call sequences *)

Section Bookkeeping.

Import RiskManager.

(** [can_trade] leaves the counters as the daily reset leaves them. *)
Lemma can_trade_stats (today : Z) (mt5 : Mt5.Terminal) (config : Config.t)
    (st : DailyStats) :
  let st0 := _check_daily_reset today mt5 st in
  let st' := snd (can_trade today mt5 config st) in
  consecutive_losses st' = consecutive_losses st0
  /\ trades_today st' = trades_today st0
  /\ winning_trades st' = winning_trades st0
  /\ losing_trades st' = losing_trades st0.
Proof.
  cbv zeta.
  destruct (Mt5.account_info mt5) as [a|] eqn:Ha.
  - rewrite (can_trade_conj today mt5 config st a Ha). cbv zeta. cbn [snd].
    apply check_daily_loss_limit_counters.
  - unfold can_trade. rewrite Ha. cbn [snd]. auto.
Qed.

Lemma counters_ordered_reset (today : Z) (mt5 : Mt5.Terminal) (rm : t) :
  counters_ordered rm ->
  counters_ordered
    (set_daily_stats rm (_check_daily_reset today mt5 (daily_stats rm))).
Proof.
  unfold counters_ordered, set_daily_stats, _check_daily_reset.
  cbn [daily_stats position_history].
  destruct (last_reset (daily_stats rm) <? today)%Z; cbn; lia.
Qed.

Lemma counters_ordered_perform (rm : t) (c : call) :
  counters_ordered rm -> counters_ordered (perform rm c).
Proof.
  intro H. destruct c as [symbol action lot entry exit profit | today mt5
                         | today mt5 config]; unfold perform.
  - unfold counters_ordered, record_trade_result in *.
    cbn [daily_stats position_history].
    rewrite List.length_app. cbn [List.length].
    destruct (Py.gtb profit 0); cbn; lia.
  - apply counters_ordered_reset. exact H.
  - apply (counters_ordered_reset today mt5) in H.
    unfold counters_ordered, set_daily_stats in *.
    cbn [daily_stats position_history] in *.
    destruct (can_trade_stats today mt5 config (daily_stats rm))
      as (Hc & Ht & Hw & Hl).
    rewrite Hc, Ht, Hl, Hw. exact H.
Qed.

(** X13: after every sequence of [record_trade_result],
    [_check_daily_reset] and [can_trade] calls on a new instance,
    [0 <= consecutive_losses <= losing_trades], [winning_trades] is not
    negative, and [trades_today] does not exceed the length of
    [position_history] (the history is never cleared by the daily reset). *)
Theorem counters_stay_ordered (today : Z) (calls : list call) :
  let rm := run (init today) calls in
  (0 <= consecutive_losses (daily_stats rm) <= losing_trades (daily_stats rm))%Z
  /\ (0 <= winning_trades (daily_stats rm))%Z
  /\ (trades_today (daily_stats rm)
      <= Z.of_nat (List.length (position_history rm)))%Z.
Proof.
  change (counters_ordered (run (init today) calls)).
  unfold run.
  assert (H : counters_ordered (init today)) by (cbv; repeat split; discriminate).
  revert H. generalize (init today).
  induction calls as [|c calls IH]; intros rm H; cbn [fold_left].
  - exact H.
  - apply IH. apply counters_ordered_perform. exact H.
Qed.

(** A run of losing trades adds its length to the streak and leaves the
    reset date alone. *)
Lemma run_losses (losses : list call) :
  Forall is_losing_call losses ->
  forall rm,
    let st := daily_stats (run rm losses) in
    consecutive_losses st
    = (consecutive_losses (daily_stats rm) + Z.of_nat (List.length losses))%Z
    /\ last_reset st = last_reset (daily_stats rm).
Proof.
  unfold run.
  induction 1 as [|c losses Hc _ IH]; intro rm; cbn [fold_left List.length].
  - split; [lia | reflexivity].
  - destruct (IH (perform rm c)) as [Hn Hr]. rewrite Hn, Hr.
    destruct c as [symbol action lot entry exit profit | |];
      cbn [is_losing_call] in Hc; try contradiction.
    unfold perform, record_trade_result. cbn [daily_stats].
    assert (E : Py.gtb profit 0 = false) by (apply gtb_false; exact Hc).
    rewrite E. cbn [consecutive_losses last_reset]. split; [lia | reflexivity].
Qed.

(** X14: once at least [max_loss_streak] trades in a row have been
    recorded with a profit of zero or less, [can_trade] on the same day
    returns false, whatever the account and the other limits. *)
Theorem losing_streak_closes_gate (today : Z) (mt5 : Mt5.Terminal)
    (config : Config.t) (rm : t) (losses : list call) :
  Forall is_losing_call losses ->
  (today <= last_reset (daily_stats rm))%Z ->
  (0 <= consecutive_losses (daily_stats rm))%Z ->
  (Config.get (Config.max_loss_streak config) 3
   <= Z.of_nat (List.length losses))%Z ->
  fst (can_trade today mt5 config (daily_stats (run rm losses))) = false.
Proof.
  intros Hl Hday Hc Hn.
  destruct (run_losses losses Hl rm) as [Hs Hr].
  apply can_trade_streak_same_day; [rewrite Hr; exact Hday|].
  rewrite Hs. lia.
Qed.

Lemma losing_streak_closes_gate_witness :
  let loss := RecordTradeResult "XAUUSD" "buy" 0.01 1950 1949 (-1) in
  fst (can_trade 1
         (Scenario.idle_terminal (Some (Scenario.flat_account 10000 10000)))
         Config.empty
         (daily_stats (run (init 1) [loss; loss; loss]))) = false.
Proof.
  intro loss.
  apply (losing_streak_closes_gate 1 _ Config.empty (init 1) [loss; loss; loss]).
  - repeat constructor; cbn; lra.
  - cbn. lia.
  - cbn. lia.
  - cbn. lia.
Defined.

(** A trade recorded with a positive profit clears the streak, so that
    the streak check passes again for any positive [max_loss_streak]. *)
Lemma winning_trade_clears_streak (config : Config.t) (rm : t)
    (symbol action : string) (lot_size entry_price exit_price profit : Q) :
  0 < profit ->
  (0 < Config.get (Config.max_loss_streak config) 3)%Z ->
  _check_loss_streak config
    (daily_stats (record_trade_result rm symbol action lot_size entry_price
                    exit_price profit)) = true.
Proof.
  intros Hp Hm. unfold _check_loss_streak, record_trade_result.
  apply gtb_spec in Hp. rewrite Hp. cbn [daily_stats consecutive_losses].
  destruct (Z.geb_spec 0 (Config.get (Config.max_loss_streak config) 3%Z));
    [lia | reflexivity].
Qed.

End Bookkeeping.

(** ** [trading.py]: trailing-stop maintenance over the open positions *)

Section Maintenance.

Import TradingEngine.

(** What a call made by [_update_trailing_stop] carries. *)
Lemma update_trailing_stop_call (mt5 : Mt5.Terminal)
    (position : Mt5.Position) (trailing_distance : Q) (call : ModifyCall) :
  _update_trailing_stop mt5 position trailing_distance = Py.Ok (Some call) ->
  mc_ticket call = Mt5.ticket position
  /\ mc_tp call = Mt5.tp position
  /\ (~ Mt5.sl position == 0 ->
      if (Mt5.type position =? Mt5.POSITION_TYPE_BUY)%Z
      then Mt5.sl position < mc_sl call
      else mc_sl call < Mt5.sl position).
Proof.
  intro Hcall.
  unfold _update_trailing_stop, _update_trailing_stop_body in Hcall.
  destruct (Mt5.symbol_info mt5 (Mt5.symbol position)) as [si|];
    [|discriminate Hcall].
  destruct (Mt5.symbol_info_tick mt5 (Mt5.symbol position)) as [tick|];
    cbn [Py.attr Py.bind] in Hcall.
  - destruct (Mt5.type position =? Mt5.POSITION_TYPE_BUY)%Z;
      cbn [Py.attr Py.bind Py.try_except] in Hcall;
      destruct (Py.eqb (Mt5.sl position) 0) eqn:Ez;
      cbn [orb] in Hcall.
    + injection Hcall as <-. cbn. repeat split.
      intro Hne. apply eqb_spec in Ez. contradiction.
    + destruct (Py.gtb _ _) eqn:E in Hcall; [|discriminate Hcall].
      injection Hcall as <-. cbn. repeat split.
      intros _. apply gtb_spec in E. exact E.
    + injection Hcall as <-. cbn. repeat split.
      intro Hne. apply eqb_spec in Ez. contradiction.
    + destruct (Py.ltb _ _) eqn:E in Hcall; [|discriminate Hcall].
      injection Hcall as <-. cbn. repeat split.
      intros _. apply ltb_spec in E. exact E.
  - destruct (Mt5.type position =? Mt5.POSITION_TYPE_BUY)%Z;
      discriminate Hcall.
Qed.

(** With trailing stops switched off (the default) a pass over the
    positions modifies nothing. *)
Lemma manage_positions_disabled (mt5 : Mt5.Terminal) (config : Config.t) :
  Config.get (Config.trailing_stop config) false = false ->
  _manage_positions mt5 config = [].
Proof.
  intro H. unfold _manage_positions. rewrite H.
  destruct (Mt5.positions_get mt5); reflexivity.
Qed.

(** X16: every modification made by [_manage_positions] happens with
    trailing stops enabled and concerns an open position whose magic number
    is 234000: it carries that position's ticket and take-profit, and when
    the position already has a stop the new stop is strictly above it for a
    buy position and strictly below it otherwise.  Positions of other
    origin are never modified. *)
Theorem manage_positions_calls (mt5 : Mt5.Terminal) (config : Config.t)
    (call : ModifyCall) :
  In call (_manage_positions mt5 config) ->
  Config.get (Config.trailing_stop config) false = true
  /\ exists position,
       In position (Mt5.positions_get mt5)
       /\ Mt5.magic position = 234000%Z
       /\ mc_ticket call = Mt5.ticket position
       /\ mc_tp call = Mt5.tp position
       /\ (~ Mt5.sl position == 0 ->
           if (Mt5.type position =? Mt5.POSITION_TYPE_BUY)%Z
           then Mt5.sl position < mc_sl call
           else mc_sl call < Mt5.sl position).
Proof.
  unfold _manage_positions. intro Hin.
  destruct (Mt5.positions_get mt5) as [|p0 ps] eqn:Hps; [contradiction|].
  destruct (Config.get (Config.trailing_stop config) false); [|contradiction].
  split; [reflexivity|]. cbn [negb] in Hin.
  apply in_flat_map in Hin. destruct Hin as (position & Hpos & Hcall).
  exists position. split; [exact Hpos|].
  destruct (Z.eqb_spec (Mt5.magic position) 234000) as [Hm|]; [|contradiction].
  cbn [negb] in Hcall. split; [exact Hm|].
  destruct (_update_trailing_stop mt5 position _) as [[c|]|] eqn:Hu;
    try contradiction.
  destruct Hcall as [<- | []].
  apply (update_trailing_stop_call mt5 position _ c Hu).
Qed.

Lemma manage_positions_calls_witness :
  let mt5 := {|
    Mt5.account_info := None;
    Mt5.symbol_info := fun _ => Some Scenario.xauusd;
    Mt5.symbol_info_tick :=
      fun _ => Some {| Mt5.bid := 1950; Mt5.ask := 1950.5 |};
    Mt5.positions_get :=
      [ {| Mt5.ticket := 7; Mt5.symbol := "XAUUSD";
           Mt5.type := Mt5.POSITION_TYPE_BUY; Mt5.sl := 1900; Mt5.tp := 0;
           Mt5.magic := 1 |};
        Scenario.gold_position Mt5.POSITION_TYPE_BUY 1900 ];
    Mt5.positions_total := 2 |} in
  let config := {|
    Config.max_daily_loss := None;
    Config.daily_profit_target := None;
    Config.max_drawdown := None;
    Config.auto_stop_drawdown := None;
    Config.max_positions := None;
    Config.max_loss_streak := None;
    Config.risk_percent := None;
    Config.auto_lot := None;
    Config.lot_size := None;
    Config.sl_value := None;
    Config.sl_unit := None;
    Config.tp_value := None;
    Config.tp_unit := None;
    Config.trailing_stop := Some true;
    Config.trailing_distance := None |} in
  exists call,
    _manage_positions mt5 config = [call]
    /\ mc_ticket call = 1%Z
    /\ Config.get (Config.trailing_stop config) false = true.
Proof.
  intros mt5 config. eexists. split; [reflexivity|]. split; [reflexivity|].
  apply (manage_positions_calls mt5 config
           {| mc_ticket := 1; mc_sl := 1950 - 15 * (0.01 * 10); mc_tp := 0 |}).
  left. reflexivity.
Defined.

(** X17: a position without a stop (stop 0) always receives one when
    the symbol data and a quote are at hand: [trailing_distance] pips of ten
    points below the bid for a buy position, above the ask otherwise. *)
Theorem missing_stop_is_always_set (mt5 : Mt5.Terminal)
    (position : Mt5.Position) (trailing_distance : Q)
    (symbol_info : Mt5.SymbolInfo) (tick : Mt5.Tick) :
  Mt5.symbol_info mt5 (Mt5.symbol position) = Some symbol_info ->
  Mt5.symbol_info_tick mt5 (Mt5.symbol position) = Some tick ->
  Mt5.sl position == 0 ->
  _update_trailing_stop mt5 position trailing_distance
  = Py.Ok (Some {|
      mc_ticket := Mt5.ticket position;
      mc_sl :=
        if (Mt5.type position =? Mt5.POSITION_TYPE_BUY)%Z
        then Mt5.bid tick - trailing_distance * (Mt5.point symbol_info * 10)
        else Mt5.ask tick + trailing_distance * (Mt5.point symbol_info * 10);
      mc_tp := Mt5.tp position |}).
Proof.
  intros Hsi Htick Hz.
  unfold _update_trailing_stop, _update_trailing_stop_body.
  rewrite Hsi, Htick. cbn [Py.attr Py.bind].
  apply eqb_spec in Hz. rewrite Hz. cbn [orb].
  rewrite engine_pip_value_eq. unfold pip_size_unconditional.
  destruct (Mt5.type position =? Mt5.POSITION_TYPE_BUY)%Z; reflexivity.
Qed.

Lemma missing_stop_is_always_set_witness :
  _update_trailing_stop
    (Scenario.quoting_terminal None Scenario.xauusd 1950 1950.5)
    (Scenario.gold_position Mt5.POSITION_TYPE_SELL 0) 15
  = Py.Ok (Some {| mc_ticket := 1;
                   mc_sl := 1950.5 + 15 * (0.01 * 10);
                   mc_tp := 0 |}).
Proof.
  apply (missing_stop_is_always_set
           (Scenario.quoting_terminal None Scenario.xauusd 1950 1950.5)
           (Scenario.gold_position Mt5.POSITION_TYPE_SELL 0) 15
           Scenario.xauusd {| Mt5.bid := 1950; Mt5.ask := 1950.5 |});
    reflexivity.
Defined.

End Maintenance.

(** ** [trading.py]: take-profit and stop-loss prices *)

Section ProtectiveLevels.

Import TradingEngine.

(** The closing step of [_calculate_tp_sl] is monotone. *)
Lemma final_level_mono (x y : Q) (ndigits : Z) :
  x <= y ->
  (if Py.gtb x 0 then Py.round_nd x ndigits else 0)
  <= (if Py.gtb y 0 then Py.round_nd y ndigits else 0).
Proof.
  intro H.
  destruct (Py.gtb x 0) eqn:Ex; destruct (Py.gtb y 0) eqn:Ey;
    try apply gtb_spec in Ex; try apply gtb_false in Ex;
    try apply gtb_spec in Ey; try apply gtb_false in Ey.
  - apply round_nd_mono. exact H.
  - lra.
  - rewrite <- (round_nd_zero ndigits). apply round_nd_mono. lra.
  - lra.
Qed.

Lemma final_level_positive (x : Q) (ndigits : Z) :
  0 < x ->
  (if Py.gtb x 0 then Py.round_nd x ndigits else 0) = Py.round_nd x ndigits.
Proof. intro H. apply gtb_spec in H. rewrite H. reflexivity. Qed.

Lemma calculate_tp_sl_returns (mt5 : Mt5.Terminal) (config : Config.t)
    (symbol action : string) (price : Q) :
  exists levels, _calculate_tp_sl mt5 config symbol action price = Py.Ok levels.
Proof. apply try_except_returns. Qed.

(** X18: for a symbol the terminal does not know, [_calculate_tp_sl]
    returns [(0, 0)], no take-profit and no stop-loss, whatever the units
    and values configured. *)
Theorem tp_sl_unknown_symbol (mt5 : Mt5.Terminal) (config : Config.t)
    (symbol action : string) (price : Q) :
  Mt5.symbol_info mt5 symbol = None ->
  _calculate_tp_sl mt5 config symbol action price = Py.Ok (0, 0).
Proof.
  intro H. unfold _calculate_tp_sl, _calculate_tp_sl_body. rewrite H.
  repeat match goal with
         | |- context [if ?b then _ else _] => destruct b
         end; reflexivity.
Qed.

Lemma tp_sl_unknown_symbol_witness :
  _calculate_tp_sl (Scenario.idle_terminal None) Config.empty "XAUUSD" "buy"
    1950 = Py.Ok (0, 0).
Proof.
  apply (tp_sl_unknown_symbol (Scenario.idle_terminal None) Config.empty
           "XAUUSD" "buy" 1950).
  reflexivity.
Defined.

Lemma unit_cases (u : string) :
  u = "pips"%string \/ u = "percent"%string ->
  (String.eqb u "pips" = true)
  \/ (String.eqb u "pips" = false /\ String.eqb u "price" = false
      /\ String.eqb u "percent" = true).
Proof. intros [-> | ->]; [left | right]; repeat split. Qed.

(** X19: with units [pips] or [percent], non-negative values, a
    non-negative point and a positive entry price, [_calculate_tp_sl] puts
    the levels on the right sides of the entry price rounded to the symbol's
    digits: for a buy the stop-loss is at or below it and the take-profit at
    or above it; for any other action the other way round. *)
Theorem tp_sl_sides (mt5 : Mt5.Terminal) (config : Config.t)
    (symbol action : string) (price : Q) (si : Mt5.SymbolInfo) :
  Mt5.symbol_info mt5 symbol = Some si ->
  (let u := Config.get (Config.tp_unit config) "pips"%string in
   u = "pips"%string \/ u = "percent"%string) ->
  (let u := Config.get (Config.sl_unit config) "pips"%string in
   u = "pips"%string \/ u = "percent"%string) ->
  0 <= Config.get (Config.tp_value config) 50 ->
  0 <= Config.get (Config.sl_value config) 25 ->
  0 <= Mt5.point si ->
  0 < price ->
  exists tp_price sl_price,
    _calculate_tp_sl mt5 config symbol action price
    = Py.Ok (tp_price, sl_price)
    /\ let entry := Py.round_nd price (Mt5.digits si) in
       if String.eqb action "buy"
       then sl_price <= entry /\ entry <= tp_price
       else tp_price <= entry /\ entry <= sl_price.
Proof.
  intros Hsi Htu Hsu Htp Hsl Hpt Hprice. cbv zeta in Htu, Hsu.
  unfold _calculate_tp_sl, _calculate_tp_sl_body. rewrite Hsi.
  set (tpv := Config.get (Config.tp_value config) 50) in *.
  set (slv := Config.get (Config.sl_value config) 25) in *.
  cbn [Py.attr Py.bind]. rewrite engine_pip_value_eq.
  unfold pip_size_unconditional.
  assert (Hpip : 0 <= Mt5.point si * 10) by lra.
  pose proof (Qmult_le_0_compat _ _ Htp Hpip) as Htpip.
  pose proof (Qmult_le_0_compat _ _ Hsl Hpip) as Hslip.
  assert (Htpc : 0 <= price * (tpv / 100)).
  { apply Qmult_le_0_compat; [lra|]. apply Qle_shift_div_l; lra. }
  assert (Hslc : 0 <= price * (slv / 100)).
  { apply Qmult_le_0_compat; [lra|]. apply Qle_shift_div_l; lra. }
  rewrite <- (final_level_positive price (Mt5.digits si) Hprice).
  destruct (unit_cases _ Htu) as [Et | (Et1 & Et2 & Et3)];
    destruct (unit_cases _ Hsu) as [Es | (Es1 & Es2 & Es3)];
    rewrite ?Et, ?Et1, ?Et2, ?Et3, ?Es, ?Es1, ?Es2, ?Es3;
    destruct (String.eqb action "buy");
    cbn [Py.attr Py.bind Py.try_except fst snd];
    do 2 eexists; (split; [reflexivity|]); cbv zeta;
    split; apply final_level_mono;
    try lra;
    try (setoid_replace (price * (1 + tpv / 100))
           with (price + price * (tpv / 100)) by field; lra);
    try (setoid_replace (price * (1 - tpv / 100))
           with (price - price * (tpv / 100)) by field; lra);
    try (setoid_replace (price * (1 + slv / 100))
           with (price + price * (slv / 100)) by field; lra);
    try (setoid_replace (price * (1 - slv / 100))
           with (price - price * (slv / 100)) by field; lra).
Qed.

Lemma tp_sl_sides_witness :
  exists tp_price sl_price,
    _calculate_tp_sl
      (Scenario.quoting_terminal None Scenario.xauusd 1950 1950.5)
      Config.empty "XAUUSD" "sell" 1950
    = Py.Ok (tp_price, sl_price)
    /\ tp_price <= Py.round_nd 1950 2 /\ Py.round_nd 1950 2 <= sl_price.
Proof.
  apply (tp_sl_sides
           (Scenario.quoting_terminal None Scenario.xauusd 1950 1950.5)
           Config.empty "XAUUSD" "sell" 1950 Scenario.xauusd);
    first [ reflexivity | left; reflexivity | vm_compute; discriminate ].
Defined.

(** X20: a unit other than [pips], [price] and [percent] (such as
    [currency], which the configuration check accepts) gives no level: the
    take-profit is 0 for such a [tp_unit], the stop-loss is 0 for such an
    [sl_unit]. *)
Theorem unrecognised_unit_gives_no_level (mt5 : Mt5.Terminal)
    (config : Config.t) (symbol action : string) (price : Q)
    (si : Mt5.SymbolInfo) :
  Mt5.symbol_info mt5 symbol = Some si ->
  exists tp_price sl_price,
    _calculate_tp_sl mt5 config symbol action price
    = Py.Ok (tp_price, sl_price)
    /\ (let u := Config.get (Config.tp_unit config) "pips"%string in
        u <> "pips"%string -> u <> "price"%string -> u <> "percent"%string ->
        tp_price = 0)
    /\ (let u := Config.get (Config.sl_unit config) "pips"%string in
        u <> "pips"%string -> u <> "price"%string -> u <> "percent"%string ->
        sl_price = 0).
Proof.
  intro Hsi. unfold _calculate_tp_sl, _calculate_tp_sl_body. rewrite Hsi.
  cbn [Py.attr Py.bind].
  destruct (String.eqb_spec (Config.get (Config.tp_unit config) "pips"%string)
                "pips"%string);
    destruct (String.eqb_spec (Config.get (Config.tp_unit config) "pips"%string)
                "price"%string);
    destruct (String.eqb_spec (Config.get (Config.tp_unit config) "pips"%string)
                "percent"%string);
    destruct (String.eqb_spec (Config.get (Config.sl_unit config) "pips"%string)
                "pips"%string);
    destruct (String.eqb_spec (Config.get (Config.sl_unit config) "pips"%string)
                "price"%string);
    destruct (String.eqb_spec (Config.get (Config.sl_unit config) "pips"%string)
                "percent"%string);
    destruct (String.eqb action "buy");
    cbn [Py.attr Py.bind Py.try_except];
    do 2 eexists; (split; [reflexivity|]); cbv zeta;
    split; intros; try contradiction; reflexivity.
Qed.

Lemma unrecognised_unit_gives_no_level_witness :
  let config := {|
    Config.max_daily_loss := None;
    Config.daily_profit_target := None;
    Config.max_drawdown := None;
    Config.auto_stop_drawdown := None;
    Config.max_positions := None;
    Config.max_loss_streak := None;
    Config.risk_percent := None;
    Config.auto_lot := None;
    Config.lot_size := None;
    Config.sl_value := Some 25;
    Config.sl_unit := Some "currency"%string;
    Config.tp_value := None;
    Config.tp_unit := None;
    Config.trailing_stop := None;
    Config.trailing_distance := None |} in
  exists tp_price,
    _calculate_tp_sl
      (Scenario.quoting_terminal None Scenario.xauusd 1950 1950.5)
      config "XAUUSD" "buy" 1950.5
    = Py.Ok (tp_price, 0).
Proof.
  intro config.
  destruct (unrecognised_unit_gives_no_level
              (Scenario.quoting_terminal None Scenario.xauusd 1950 1950.5)
              config "XAUUSD" "buy" 1950.5 Scenario.xauusd eq_refl)
    as (tp & sl & Hcall & _ & Hsl).
  exists tp. rewrite Hcall.
  rewrite Hsl; [reflexivity | discriminate | discriminate | discriminate].
Defined.

End ProtectiveLevels.

(** ** [trading.py]: order execution *)

Section Execution.

Import TradingEngine.

Variable mt5 : Mt5.Terminal.
Variable config : Config.t.
Variable order_send : Mt5.OrderRequest -> Mt5.TradeResult.
Variable now : Q.
Variable sd : SessionData.
Variable signal : RiskManager.Signal.

(** What a request that reached [order_send] looks like, and what the
    call leaves behind. *)
Lemma execute_trade_sent (execution : Execution) (request : Mt5.OrderRequest) :
  _execute_trade mt5 config order_send now sd signal = Py.Ok execution ->
  ex_sent execution = Some request ->
  exists si tick lot,
    Mt5.symbol_info mt5 (RiskManager.sig_symbol signal) = Some si
    /\ Mt5.symbol_info_tick mt5 (RiskManager.sig_symbol signal) = Some tick
    /\ (if Config.get (Config.auto_lot config) true
        then RiskManager.calculate_lot_size mt5 config
               (RiskManager.sig_symbol signal) signal
        else Py.Ok (Config.get (Config.lot_size config) 0.01)) = Py.Ok lot
    /\ 0 < lot
    /\ Mt5.req_volume request = lot
    /\ Mt5.req_symbol request = RiskManager.sig_symbol signal
    /\ Mt5.req_magic request = 234000%Z
    /\ Mt5.req_price request
       = (if String.eqb (RiskManager.sig_action signal) "buy"
          then Mt5.ask tick else Mt5.bid tick)
    /\ Mt5.req_type request
       = (if String.eqb (RiskManager.sig_action signal) "buy"
          then Mt5.ORDER_TYPE_BUY else Mt5.ORDER_TYPE_SELL)
    /\ _calculate_tp_sl mt5 config (RiskManager.sig_symbol signal)
         (RiskManager.sig_action signal) (Mt5.req_price request)
       = Py.Ok (Mt5.req_tp request, Mt5.req_sl request)
    /\ ex_success execution
       = (Mt5.retcode (order_send request) =? Mt5.TRADE_RETCODE_DONE)%Z
    /\ ex_session_data execution
       = if ex_success execution
         then {| sd_start_balance := sd_start_balance sd;
                 sd_total_trades := sd_total_trades sd + 1;
                 sd_winning_trades := sd_winning_trades sd;
                 sd_losing_trades := sd_losing_trades sd;
                 sd_total_profit := sd_total_profit sd;
                 sd_daily_profit := sd_daily_profit sd;
                 sd_max_equity := sd_max_equity sd;
                 sd_trades_log :=
                   sd_trades_log sd
                   ++ [{| tl_time := now;
                          tl_symbol := RiskManager.sig_symbol signal;
                          tl_action := RiskManager.sig_action signal;
                          tl_volume := lot;
                          tl_price := Mt5.req_price request;
                          tl_tp := Mt5.req_tp request;
                          tl_sl := Mt5.req_sl request;
                          tl_strategy := RiskManager.sig_strategy signal;
                          tl_confidence := RiskManager.sig_confidence signal;
                          tl_ticket := Mt5.order (order_send request) |}] |}
         else sd.
Proof.
  unfold _execute_trade, _execute_trade_body.
  destruct (Mt5.symbol_info mt5 (RiskManager.sig_symbol signal)) as [si|];
    [|cbn; intros [= <-]; discriminate].
  destruct (if Config.get (Config.auto_lot config) true
            then RiskManager.calculate_lot_size mt5 config
                   (RiskManager.sig_symbol signal) signal
            else Py.Ok (Config.get (Config.lot_size config) 0.01))
    as [lot|e] eqn:Hlot;
    [|cbn; intros [= <-]; discriminate].
  cbn [Py.bind].
  destruct (Py.leb lot 0) eqn:Hpos; [cbn; intros [= <-]; discriminate|].
  destruct (Mt5.symbol_info_tick mt5 (RiskManager.sig_symbol signal))
    as [tick|];
    [|cbn; intros [= <-]; discriminate].
  cbn [Py.attr Py.bind].
  destruct (calculate_tp_sl_returns mt5 config
              (RiskManager.sig_symbol signal) (RiskManager.sig_action signal)
              (if String.eqb (RiskManager.sig_action signal) "buy"
               then Mt5.ask tick else Mt5.bid tick))
    as [[tp sl] Hlv].
  rewrite Hlv. cbn [Py.bind fst snd].
  assert (Hlot_pos : 0 < lot).
  { apply Qnot_le_lt. intro Hle. apply leb_spec in Hle. congruence. }
  match goal with
  | |- context [order_send ?r] => set (req := r)
  end.
  destruct (Mt5.retcode (order_send req) =? Mt5.TRADE_RETCODE_DONE)%Z eqn:Hrc;
    cbn [negb Py.try_except]; intros [= <-]; cbn [ex_sent];
    intros [= <-]; exists si, tick, lot; subst req;
    cbn [Mt5.req_volume Mt5.req_symbol Mt5.req_magic Mt5.req_price
         Mt5.req_type Mt5.req_tp Mt5.req_sl ex_success ex_session_data];
    rewrite ?Hrc; repeat split; auto.
Qed.

(** A call that sends nothing fails and changes nothing. *)
Lemma execute_trade_not_sent (execution : Execution) :
  _execute_trade mt5 config order_send now sd signal = Py.Ok execution ->
  ex_sent execution = None ->
  ex_success execution = false /\ ex_session_data execution = sd.
Proof.
  unfold _execute_trade, _execute_trade_body.
  destruct (Mt5.symbol_info mt5 (RiskManager.sig_symbol signal)) as [si|];
    [|cbn; intros [= <-]; auto].
  destruct (if Config.get (Config.auto_lot config) true
            then RiskManager.calculate_lot_size mt5 config
                   (RiskManager.sig_symbol signal) signal
            else Py.Ok (Config.get (Config.lot_size config) 0.01))
    as [lot|e];
    [|cbn; intros [= <-]; auto].
  cbn [Py.bind].
  destruct (Py.leb lot 0); [cbn; intros [= <-]; auto|].
  destruct (Mt5.symbol_info_tick mt5 (RiskManager.sig_symbol signal))
    as [tick|];
    [|cbn; intros [= <-]; auto].
  cbn [Py.attr Py.bind].
  destruct (calculate_tp_sl_returns mt5 config
              (RiskManager.sig_symbol signal) (RiskManager.sig_action signal)
              (if String.eqb (RiskManager.sig_action signal) "buy"
               then Mt5.ask tick else Mt5.bid tick))
    as [[tp sl] Hlv].
  rewrite Hlv. cbn [Py.bind fst snd].
  match goal with
  | |- context [order_send ?r] => set (req := r)
  end.
  destruct (Mt5.retcode (order_send req) =? Mt5.TRADE_RETCODE_DONE)%Z;
    cbn [negb Py.try_except]; intros [= <-]; cbn [ex_sent]; discriminate.
Qed.

Lemma execute_trade_returns :
  exists execution,
    _execute_trade mt5 config order_send now sd signal = Py.Ok execution.
Proof. apply try_except_returns. Qed.

(** X21: every order that reaches the broker asks for a positive volume of
    the signal's symbol under magic number 234000; a [buy] signal becomes a
    buy order at the ask, any other action a sell order at the bid; its
    levels are those of [_calculate_tp_sl] at that price. *)
Theorem sent_order_is_well_formed (execution : Execution)
    (request : Mt5.OrderRequest) :
  _execute_trade mt5 config order_send now sd signal = Py.Ok execution ->
  ex_sent execution = Some request ->
  exists tick,
    Mt5.symbol_info_tick mt5 (RiskManager.sig_symbol signal) = Some tick
    /\ Mt5.symbol_info mt5 (RiskManager.sig_symbol signal) <> None
    /\ Mt5.req_symbol request = RiskManager.sig_symbol signal
    /\ 0 < Mt5.req_volume request
    /\ Mt5.req_magic request = 234000%Z
    /\ (if String.eqb (RiskManager.sig_action signal) "buy"
        then Mt5.req_type request = Mt5.ORDER_TYPE_BUY
             /\ Mt5.req_price request = Mt5.ask tick
        else Mt5.req_type request = Mt5.ORDER_TYPE_SELL
             /\ Mt5.req_price request = Mt5.bid tick)
    /\ _calculate_tp_sl mt5 config (RiskManager.sig_symbol signal)
         (RiskManager.sig_action signal) (Mt5.req_price request)
       = Py.Ok (Mt5.req_tp request, Mt5.req_sl request).
Proof.
  intros Hex Hsent.
  destruct (execute_trade_sent execution request Hex Hsent)
    as (si & tick & lot & Hsi & Htick & _ & Hpos & Hvol & Hsym & Hmagic
        & Hprice & Htype & Hlv & _).
  exists tick. rewrite Hvol.
  repeat split; auto; try congruence.
  destruct (String.eqb (RiskManager.sig_action signal) "buy"); auto.
Qed.

(** X22: the session data after a call: the trade count and the log grow by
    one exactly when the broker accepts the order; the win, loss and profit
    entries are never touched. *)
Theorem execute_trade_bookkeeping (execution : Execution) :
  _execute_trade mt5 config order_send now sd signal = Py.Ok execution ->
  let sd' := ex_session_data execution in
  (ex_success execution = true
   <-> exists request,
         ex_sent execution = Some request
         /\ Mt5.retcode (order_send request) = Mt5.TRADE_RETCODE_DONE)
  /\ (ex_success execution = false -> sd' = sd)
  /\ (ex_success execution = true ->
      sd_total_trades sd' = (sd_total_trades sd + 1)%Z
      /\ List.length (sd_trades_log sd')
         = S (List.length (sd_trades_log sd)))
  /\ sd_winning_trades sd' = sd_winning_trades sd
  /\ sd_losing_trades sd' = sd_losing_trades sd
  /\ sd_total_profit sd' = sd_total_profit sd.
Proof.
  intros Hex sd'. subst sd'.
  destruct (ex_sent execution) as [request|] eqn:Hsent.
  - destruct (execute_trade_sent execution request Hex Hsent)
      as (si & tick & lot & _ & _ & _ & _ & _ & _ & _ & _ & _ & _ & Hs & Hsd).
    rewrite Hsd, Hs.
    destruct (Z.eqb_spec (Mt5.retcode (order_send request))
                Mt5.TRADE_RETCODE_DONE) as [Hrc | Hrc].
    + cbn [sd_total_trades sd_trades_log sd_winning_trades sd_losing_trades
           sd_total_profit].
      rewrite List.length_app. cbn [List.length].
      repeat split; auto; try discriminate; try lia.
      intros _. exists request. auto.
    + repeat split; auto; try discriminate.
      intros (r & [= <-] & Hr). contradiction.
  - destruct (execute_trade_not_sent execution Hex Hsent) as [Hs Hsd].
    rewrite Hs, Hsd. repeat split; auto; try discriminate.
    intros (r & Hr & _). discriminate Hr.
Qed.

End Execution.

Section OrderSizing.

Import TradingEngine.

(** X23: with automatic sizing switched off, [_execute_trade] sends the
    configured [lot_size] as it is whenever it is positive and the symbol
    and a quote are known: the instrument's volume limits are not applied to
    it. *)
Theorem manual_lot_is_sent_unclamped (mt5 : Mt5.Terminal) (config : Config.t)
    (order_send : Mt5.OrderRequest -> Mt5.TradeResult) (now : Q)
    (sd : SessionData) (signal : RiskManager.Signal)
    (si : Mt5.SymbolInfo) (tick : Mt5.Tick) :
  Mt5.symbol_info mt5 (RiskManager.sig_symbol signal) = Some si ->
  Mt5.symbol_info_tick mt5 (RiskManager.sig_symbol signal) = Some tick ->
  Config.get (Config.auto_lot config) true = false ->
  0 < Config.get (Config.lot_size config) 0.01 ->
  exists execution request,
    _execute_trade mt5 config order_send now sd signal = Py.Ok execution
    /\ ex_sent execution = Some request
    /\ Mt5.req_volume request = Config.get (Config.lot_size config) 0.01.
Proof.
  intros Hsi Htick Hauto Hpos.
  unfold _execute_trade, _execute_trade_body.
  rewrite Hsi, Hauto, Htick. cbn [Py.bind Py.attr].
  assert (E : Py.leb (Config.get (Config.lot_size config) 0.01) 0 = false).
  { destruct (Py.leb _ 0) eqn:E; [|reflexivity]. apply leb_spec in E. lra. }
  rewrite E.
  destruct (calculate_tp_sl_returns mt5 config
              (RiskManager.sig_symbol signal) (RiskManager.sig_action signal)
              (if String.eqb (RiskManager.sig_action signal) "buy"
               then Mt5.ask tick else Mt5.bid tick)) as [[tp sl] Hlv].
  rewrite Hlv. cbn [Py.bind fst snd].
  match goal with
  | |- context [order_send ?r] => set (req := r)
  end.
  destruct (Mt5.retcode (order_send req) =? Mt5.TRADE_RETCODE_DONE)%Z;
    cbn [negb Py.try_except]; do 2 eexists; repeat split.
Qed.

(** X24: with automatic sizing and the account snapshot at hand, on an
    instrument whose step is a whole number of hundredths and whose minimum
    and maximum are whole numbers of steps, every order that
    [_execute_trade] sends has a volume between the minimum and the maximum
    that is a whole multiple of the step. *)
Theorem auto_lot_order_within_limits (mt5 : Mt5.Terminal) (config : Config.t)
    (order_send : Mt5.OrderRequest -> Mt5.TradeResult) (now : Q)
    (sd : SessionData) (signal : RiskManager.Signal)
    (execution : Execution) (request : Mt5.OrderRequest)
    (a : Mt5.AccountInfo) (si : Mt5.SymbolInfo) (kmin kmax kstep : Z) :
  Mt5.account_info mt5 = Some a ->
  Mt5.symbol_info mt5 (RiskManager.sig_symbol signal) = Some si ->
  Config.get (Config.auto_lot config) true = true ->
  (0 < kstep)%Z ->
  (kmin <= kmax)%Z ->
  Mt5.volume_step si == inject_Z kstep * 0.01 ->
  Mt5.volume_min si == inject_Z kmin * Mt5.volume_step si ->
  Mt5.volume_max si == inject_Z kmax * Mt5.volume_step si ->
  _execute_trade mt5 config order_send now sd signal = Py.Ok execution ->
  ex_sent execution = Some request ->
  Mt5.volume_min si <= Mt5.req_volume request
  /\ Mt5.req_volume request <= Mt5.volume_max si
  /\ multiple_of (Mt5.req_volume request) (Mt5.volume_step si).
Proof.
  intros Ha Hsi Hauto Hk Hkk Hstep Hmin Hmax Hex Hsent.
  destruct (execute_trade_sent mt5 config order_send now sd signal
              execution request Hex Hsent)
    as (si' & tick & lot & _ & _ & Hlot & _ & Hvol & _).
  rewrite Hauto in Hlot. rewrite Hvol.
  destruct (calculate_lot_size_is_limited mt5 config
              (RiskManager.sig_symbol signal) signal a si Ha Hsi)
    as [raw Hraw].
  destruct (apply_lot_limits_within si kmin kmax kstep Hk Hkk Hstep Hmin Hmax
              raw a) as (lot' & k & Hlot' & Hkb & Hgrid).
  assert (lot = lot') by congruence. subst lot'.
  pose proof (volume_step_positive si kstep Hk Hstep) as Hpos.
  split; [|split].
  - rewrite Hmin, Hgrid. apply on_grid_mono; [exact Hpos | lia].
  - rewrite Hmax, Hgrid. apply on_grid_mono; [exact Hpos | lia].
  - exists k. exact Hgrid.
Qed.

(** X29: with automatic sizing and no account snapshot, [_execute_trade]
    still sends an order whenever the symbol and a quote are known, and its
    volume is the literal 0.01 whatever the instrument's minimum, maximum
    and step. *)
Theorem unreadable_account_sends_literal_lot (mt5 : Mt5.Terminal)
    (config : Config.t) (order_send : Mt5.OrderRequest -> Mt5.TradeResult)
    (now : Q) (sd : SessionData) (signal : RiskManager.Signal)
    (si : Mt5.SymbolInfo) (tick : Mt5.Tick) :
  Mt5.account_info mt5 = None ->
  Mt5.symbol_info mt5 (RiskManager.sig_symbol signal) = Some si ->
  Mt5.symbol_info_tick mt5 (RiskManager.sig_symbol signal) = Some tick ->
  Config.get (Config.auto_lot config) true = true ->
  exists execution request,
    _execute_trade mt5 config order_send now sd signal = Py.Ok execution
    /\ ex_sent execution = Some request
    /\ Mt5.req_volume request = 0.01.
Proof.
  intros Ha Hsi Htick Hauto.
  unfold _execute_trade, _execute_trade_body.
  rewrite Hsi, Hauto, Htick.
  rewrite (calculate_lot_size_no_account mt5 config
             (RiskManager.sig_symbol signal) signal Ha).
  cbn [Py.bind Py.attr].
  assert (E : Py.leb 0.01 0 = false) by reflexivity.
  rewrite E.
  destruct (calculate_tp_sl_returns mt5 config
              (RiskManager.sig_symbol signal) (RiskManager.sig_action signal)
              (if String.eqb (RiskManager.sig_action signal) "buy"
               then Mt5.ask tick else Mt5.bid tick)) as [[tp sl] Hlv].
  rewrite Hlv. cbn [Py.bind fst snd].
  match goal with
  | |- context [order_send ?r] => set (req := r)
  end.
  destruct (Mt5.retcode (order_send req) =? Mt5.TRADE_RETCODE_DONE)%Z;
    cbn [negb Py.try_except]; do 2 eexists; repeat split.
Qed.

End OrderSizing.

Section SignalGate.

Import TradingEngine.

Variable mt5 : Mt5.Terminal.
Variable config : Config.t.
Variable more : Config.more.
Variable order_send : Mt5.OrderRequest -> Mt5.TradeResult.
Variable now : Q.
Variable engine : Engine.
Variable signal : RiskManager.Signal.

(** X25: [_process_signal] sends nothing and leaves the engine as it is
    when the engine is not running, when the signal's confidence is below
    [ai_confidence] (0.75 by default), or when the last accepted order on
    the signal's symbol is less than 60 seconds old. *)
Theorem signal_gate :
  running engine = false
  \/ RiskManager.sig_confidence signal
     < Config.get (Config.ai_confidence more) 0.75
  \/ (exists last,
        last_trade_time engine (RiskManager.sig_symbol signal) = Some last
        /\ now - last < 60) ->
  _process_signal mt5 config more order_send now engine signal
  = {| pr_engine := engine; pr_sent := None |}.
Proof.
  unfold _process_signal. intros [H | [H | (last & Hl & H)]].
  - rewrite H. reflexivity.
  - apply ltb_spec in H. rewrite H.
    destruct (running engine); reflexivity.
  - rewrite Hl. apply ltb_spec in H. rewrite H.
    destruct (running engine); cbn [negb]; [|reflexivity].
    destruct (Py.ltb (RiskManager.sig_confidence signal) _); reflexivity.
Qed.



End SignalGate.

(** ** [trading.py]: sample runs of the execution path *)

Section ExecutionSamples.

Import TradingEngine.

(** The order that the sample signal produces on the sample terminal. *)
Lemma sample_execution :
  let mt5 := Scenario.quoting_terminal
               (Some (Scenario.flat_account 10000 10000)) Scenario.xauusd
               1950 1950.5 in
  exists execution request,
    _execute_trade mt5 Config.empty Scenario.accepting_broker 0
      session_data_init (Scenario.signal "buy") = Py.Ok execution
    /\ ex_sent execution = Some request.
Proof.
  intro mt5.
  destruct (execute_trade_returns mt5 Config.empty Scenario.accepting_broker 0
              session_data_init (Scenario.signal "buy")) as [execution Hex].
  assert (H : match _execute_trade mt5 Config.empty Scenario.accepting_broker
                      0 session_data_init (Scenario.signal "buy") with
              | Py.Ok e => ex_sent e <> None
              | Py.Raise _ => False
              end) by (vm_compute; discriminate).
  rewrite Hex in H. exists execution.
  destruct (ex_sent execution) as [request|]; [eauto | contradiction].
Defined.

Lemma sent_order_is_well_formed_witness :
  let mt5 := Scenario.quoting_terminal
               (Some (Scenario.flat_account 10000 10000)) Scenario.xauusd
               1950 1950.5 in
  exists execution request,
    _execute_trade mt5 Config.empty Scenario.accepting_broker 0
      session_data_init (Scenario.signal "buy") = Py.Ok execution
    /\ ex_sent execution = Some request
    /\ 0 < Mt5.req_volume request
    /\ Mt5.req_price request = 1950.5.
Proof.
  intro mt5. destruct sample_execution as (execution & request & Hex & Hsent).
  exists execution, request. split; [exact Hex|]. split; [exact Hsent|].
  destruct (sent_order_is_well_formed mt5 Config.empty
              Scenario.accepting_broker 0 session_data_init
              (Scenario.signal "buy") execution request Hex Hsent)
    as (tick & Htick & _ & _ & Hpos & _ & Hside & _).
  split; [exact Hpos|].
  injection Htick as <-. exact (proj2 Hside).
Defined.

Lemma execute_trade_bookkeeping_witness :
  let mt5 := Scenario.quoting_terminal
               (Some (Scenario.flat_account 10000 10000)) Scenario.xauusd
               1950 1950.5 in
  exists execution,
    _execute_trade mt5 Config.empty Scenario.accepting_broker 0
      session_data_init (Scenario.signal "buy") = Py.Ok execution
    /\ sd_winning_trades (ex_session_data execution) = 0%Z.
Proof.
  intro mt5. destruct sample_execution as (execution & request & Hex & Hsent).
  exists execution. split; [exact Hex|].
  apply (execute_trade_bookkeeping mt5 Config.empty
           Scenario.accepting_broker 0 session_data_init
           (Scenario.signal "buy") execution Hex).
Defined.

Lemma manual_lot_is_sent_unclamped_witness :
  let mt5 := Scenario.quoting_terminal
               (Some (Scenario.flat_account 10000 10000)) Scenario.xauusd
               1950 1950.5 in
  exists execution request,
    _execute_trade mt5 (Scenario.manual_lot 500) Scenario.accepting_broker 0
      session_data_init (Scenario.signal "buy") = Py.Ok execution
    /\ ex_sent execution = Some request
    /\ Mt5.req_volume request = 500
    /\ Mt5.volume_max Scenario.xauusd < Mt5.req_volume request.
Proof.
  intro mt5.
  destruct (manual_lot_is_sent_unclamped mt5 (Scenario.manual_lot 500)
              Scenario.accepting_broker 0 session_data_init
              (Scenario.signal "buy") Scenario.xauusd
              {| Mt5.bid := 1950; Mt5.ask := 1950.5 |}
              eq_refl eq_refl eq_refl eq_refl)
    as (execution & request & Hex & Hsent & Hvol).
  exists execution, request. repeat split; try assumption.
  rewrite Hvol. reflexivity.
Defined.

Lemma auto_lot_order_within_limits_witness :
  let mt5 := Scenario.quoting_terminal
               (Some (Scenario.flat_account 10000 10000)) Scenario.xauusd
               1950 1950.5 in
  exists execution request,
    _execute_trade mt5 Config.empty Scenario.accepting_broker 0
      session_data_init (Scenario.signal "buy") = Py.Ok execution
    /\ ex_sent execution = Some request
    /\ Mt5.req_volume request <= Mt5.volume_max Scenario.xauusd.
Proof.
  intro mt5. destruct sample_execution as (execution & request & Hex & Hsent).
  exists execution, request. split; [exact Hex|]. split; [exact Hsent|].
  apply (auto_lot_order_within_limits mt5 Config.empty
           Scenario.accepting_broker 0 session_data_init
           (Scenario.signal "buy") execution request
           (Scenario.flat_account 10000 10000) Scenario.xauusd
           1%Z 10000%Z 1%Z);
    first [ assumption | reflexivity | lia ].
Defined.

Lemma signal_gate_witness :
  _process_signal
    (Scenario.quoting_terminal
       (Some (Scenario.flat_account 10000 10000)) Scenario.xauusd 1950 1950.5)
    Config.empty Scenario.no_more Scenario.accepting_broker 100
    (engine_init true)
    {| RiskManager.sig_action := "buy";
       RiskManager.sig_symbol := "XAUUSD";
       RiskManager.sig_strategy := "Scalping";
       RiskManager.sig_confidence := 0.7;
       RiskManager.sig_price := None |}
  = {| pr_engine := engine_init true; pr_sent := None |}.
Proof.
  apply signal_gate. right. left. reflexivity.
Defined.


Lemma unreadable_account_sends_literal_lot_witness :
  let si := Scenario.instrument 0.1 100 0.1 in
  let mt5 := Scenario.quoting_terminal None si 1950 1950.5 in
  exists execution request,
    _execute_trade mt5 Config.empty Scenario.accepting_broker 0
      session_data_init (Scenario.signal "buy") = Py.Ok execution
    /\ ex_sent execution = Some request
    /\ Mt5.req_volume request = 0.01
    /\ Mt5.req_volume request < Mt5.volume_min si.
Proof.
  intros si mt5.
  destruct (unreadable_account_sends_literal_lot mt5 Config.empty
              Scenario.accepting_broker 0 session_data_init
              (Scenario.signal "buy") si
              {| Mt5.bid := 1950; Mt5.ask := 1950.5 |})
    as (execution & request & Hex & Hsent & Hvol);
    try reflexivity.
  exists execution, request. repeat split; try assumption.
  rewrite Hvol. reflexivity.
Defined.

End ExecutionSamples.

(** ** [trading.py]: the session data over signal sequences *)

Section SessionInvariant.

Import TradingEngine.

Lemma execute_trade_counts (mt5 : Mt5.Terminal) (config : Config.t)
    (order_send : Mt5.OrderRequest -> Mt5.TradeResult) (now : Q)
    (sd : SessionData) (signal : RiskManager.Signal) (execution : Execution) :
  _execute_trade mt5 config order_send now sd signal = Py.Ok execution ->
  session_counts_agree sd ->
  session_counts_agree (ex_session_data execution).
Proof.
  intros Hex H.
  destruct (ex_sent execution) as [request|] eqn:Hsent.
  - destruct (execute_trade_sent mt5 config order_send now sd signal
                execution request Hex Hsent)
      as (si & tick & lot & _ & _ & _ & _ & _ & _ & _ & _ & _ & _ & _ & Hsd).
    rewrite Hsd. destruct (ex_success execution); [|exact H].
    unfold session_counts_agree in *.
    cbn [sd_total_trades sd_trades_log sd_winning_trades sd_losing_trades].
    rewrite List.length_app. cbn [List.length]. lia.
  - destruct (execute_trade_not_sent mt5 config order_send now sd signal
                execution Hex Hsent) as [_ Hsd].
    rewrite Hsd. exact H.
Qed.

Lemma process_signal_counts (mt5 : Mt5.Terminal) (config : Config.t)
    (more : Config.more)
    (order_send : Mt5.OrderRequest -> Mt5.TradeResult) (now : Q)
    (engine : Engine) (signal : RiskManager.Signal) :
  session_counts_agree (session_data engine) ->
  session_counts_agree
    (session_data
       (pr_engine
          (_process_signal mt5 config more order_send now engine signal))).
Proof.
  intro H. unfold _process_signal.
  destruct (running engine); cbn [negb]; [|exact H].
  destruct (Py.ltb (RiskManager.sig_confidence signal) _); [exact H|].
  destruct (match last_trade_time engine (RiskManager.sig_symbol signal) with
            | Some last => Py.ltb (now - last) 60
            | None => false
            end); [exact H|].
  destruct (execute_trade_returns mt5 config order_send now
              (session_data engine) signal) as [execution Hex].
  rewrite Hex. cbn [pr_engine session_data].
  apply (execute_trade_counts _ _ _ _ _ _ _ Hex H).
Qed.

(** X27: after any sequence of [_process_signal] calls on a new engine,
    the session's [total_trades] equals the length of its trade log, and its
    [winning_trades] and [losing_trades] are still zero: order execution
    never updates them. *)
Theorem session_counts_stay_agreed (running : bool) (steps : list Step) :
  let sd := session_data (process_signals (engine_init running) steps) in
  sd_total_trades sd = Z.of_nat (List.length (sd_trades_log sd))
  /\ sd_winning_trades sd = 0%Z
  /\ sd_losing_trades sd = 0%Z.
Proof.
  change (session_counts_agree
            (session_data (process_signals (engine_init running) steps))).
  unfold process_signals.
  assert (H : session_counts_agree (session_data (engine_init running)))
    by (repeat split).
  revert H. generalize (engine_init running).
  induction steps as [|step steps IH]; intros engine H; cbn [fold_left].
  - exact H.
  - apply IH. apply process_signal_counts. exact H.
Qed.

End SessionInvariant.

(** ** [risk_management.py]: what an approval means, and raw sizing *)

Section GateMore.

Import RiskManager.

(** X15: when [can_trade] returns true the account was readable, the
    number of open positions is below [max_positions], the consecutive-loss
    count is below [max_loss_streak], the free margin is at least a tenth of
    the balance and, when margin is in use, the margin level is at least
    200. *)
Theorem approval_guarantees (today : Z) (mt5 : Mt5.Terminal)
    (config : Config.t) (st : DailyStats) :
  fst (can_trade today mt5 config st) = true ->
  exists a,
    Mt5.account_info mt5 = Some a
    /\ (Mt5.positions_total mt5
        < Config.get (Config.max_positions config) 10)%Z
    /\ (consecutive_losses (snd (can_trade today mt5 config st))
        < Config.get (Config.max_loss_streak config) 3)%Z
    /\ Mt5.balance a * 0.1 <= Mt5.margin_free a
    /\ (0 < Mt5.margin a -> 200 <= Mt5.margin_level a).
Proof.
  intro H.
  destruct (Mt5.account_info mt5) as [a|] eqn:Ha.
  - exists a. split; [reflexivity|].
    rewrite (can_trade_conj today mt5 config st a Ha) in *.
    cbv zeta in *. cbn [fst snd] in *.
    repeat (apply andb_true_iff in H; destruct H as [H ?]).
    repeat split.
    + unfold _check_position_limits in *.
      destruct (Z.geb_spec (Mt5.positions_total mt5)
                  (Config.get (Config.max_positions config) 10%Z));
        [discriminate | lia].
    + unfold _check_loss_streak in *.
      match goal with
      | Hs : (if (?x >=? ?y)%Z then false else true) = true |- _ =>
          destruct (Z.geb_spec x y); [discriminate | lia]
      end.
    + unfold _check_margin_requirements in *.
      destruct (Py.ltb (if Py.gtb (Mt5.margin a) 0
                        then Mt5.margin_level a else 999999) 200);
        [discriminate|].
      destruct (Py.ltb (Mt5.margin_free a) (Mt5.balance a * 0.1)) eqn:E;
        [discriminate|].
      apply ltb_false in E. exact E.
    + intro Hm. unfold _check_margin_requirements in *.
      apply gtb_spec in Hm. rewrite Hm in *.
      destruct (Py.ltb (Mt5.margin_level a) 200) eqn:E; [discriminate|].
      apply ltb_false in E. exact E.
  - rewrite can_trade_no_account in H by exact Ha. discriminate.
Qed.

Lemma approval_guarantees_witness :
  exists a,
    Mt5.account_info
      (Scenario.idle_terminal (Some (Scenario.flat_account 10000 10000)))
    = Some a
    /\ Mt5.balance a * 0.1 <= Mt5.margin_free a.
Proof.
  destruct (approval_guarantees 1
              (Scenario.idle_terminal (Some (Scenario.flat_account 10000 10000)))
              Config.empty (Scenario.fresh_day 1 10000) eq_refl)
    as (a & Ha & _ & _ & Hfree & _).
  exists a. split; assumption.
Defined.

Lemma check_daily_reset_settled (today : Z) (mt5 : Mt5.Terminal)
    (st : DailyStats) :
  (today <= last_reset (_check_daily_reset today mt5 st))%Z.
Proof.
  unfold _check_daily_reset.
  destruct (Z.ltb_spec (last_reset st) today); cbn; lia.
Qed.

Lemma check_daily_loss_limit_settled (a : Mt5.AccountInfo) (config : Config.t)
    (st : DailyStats) :
  _check_daily_loss_limit a config (snd (_check_daily_loss_limit a config st))
  = _check_daily_loss_limit a config st.
Proof.
  set (seed := fun s : DailyStats =>
                 if Py.eqb (start_balance s) 0
                 then set_start_balance s (Mt5.balance a) else s).
  set (decide := fun s : DailyStats =>
                   if Py.gtb
                        (Utils.safe_divide (start_balance s - Mt5.balance a)
                                           (start_balance s * 100) 0)
                        (Config.get (Config.max_daily_loss config) 5.0)
                   then (false, s) else (true, s)).
  assert (Hform : forall s, _check_daily_loss_limit a config s = decide (seed s))
    by reflexivity.
  assert (Hsnd : forall s, snd (decide s) = s).
  { intro s. unfold decide. destruct (Py.gtb _ _); reflexivity. }
  assert (Hseed : seed (seed st) = seed st).
  { unfold seed. destruct (Py.eqb (start_balance st) 0) eqn:E.
    - cbn [set_start_balance start_balance].
      destruct (Py.eqb (Mt5.balance a) 0); reflexivity.
    - rewrite E. reflexivity. }
  rewrite (Hform st), Hsnd, Hform, Hseed. reflexivity.
Qed.

Lemma check_daily_loss_limit_reset_date (a : Mt5.AccountInfo)
    (config : Config.t) (st : DailyStats) :
  last_reset (snd (_check_daily_loss_limit a config st)) = last_reset st.
Proof.
  unfold _check_daily_loss_limit.
  destruct (Py.eqb (start_balance st) 0); destruct (Py.gtb _ _); reflexivity.
Qed.

(** X28: [can_trade] is idempotent on an unchanged terminal and
    configuration: called again on the statistics it has just left, it
    returns the same answer and leaves the same statistics (the daily reset
    and the seeding of the start balance happen once). *)
Theorem can_trade_idempotent (today : Z) (mt5 : Mt5.Terminal)
    (config : Config.t) (st : DailyStats) :
  can_trade today mt5 config (snd (can_trade today mt5 config st))
  = can_trade today mt5 config st.
Proof.
  pose proof (check_daily_reset_settled today mt5 st) as Hday.
  destruct (Mt5.account_info mt5) as [a|] eqn:Ha.
  - rewrite (can_trade_conj today mt5 config st a Ha). cbv zeta. cbn [snd].
    set (st0 := _check_daily_reset today mt5 st) in *.
    rewrite (can_trade_conj today mt5 config _ a Ha). cbv zeta.
    rewrite check_daily_reset_same_day
      by (rewrite check_daily_loss_limit_reset_date; exact Hday).
    rewrite check_daily_loss_limit_settled. reflexivity.
  - unfold can_trade. rewrite Ha. cbn [snd].
    rewrite check_daily_reset_same_day by exact Hday. reflexivity.
Qed.

End GateMore.
